(** * Nano-Q: the Gemini command-line helpers

    A shallow embedding of the three scripts of the repository,

      - [Nano-Q/gemini_viz.py]              (visualization flow),
      - [gemini_qa.py]                      (question answering flow),
      - [nano-summarizer-website/gemini_qa.py] (the website's older QA script),

    and the properties of their error handling, their model calls and
    the recovery of JSON from the model's text.

    Python strings are sequences of Unicode code points; the scripts'
    effects (printing, model calls, figures, exceptions, [sys.exit]) are
    a state-and-exception monad over a trace of events; everything the
    scripts call outside the repository (the Gemini client, [json.loads],
    pandas, matplotlib) is a field of a [World] record, so that every
    theorem holds whatever those libraries answer. *)

From Stdlib Require Import List NArith ZArith Bool String Ascii.
Import ListNotations.

Set Implicit Arguments.
Set Warnings "-register-all".
Local Open Scope N_scope.

(** ** Python strings *)

Module PyStr.

(** A [str] is a sequence of code points. *)
Definition codepoint := N.
Definition pystr := list codepoint.

(** A literal of the source, written as a Rocq string of ASCII characters. *)
Definition lit (s : string) : pystr := map N_of_ascii (list_ascii_of_string s).

Definition eqb (a b : pystr) : bool :=
  if list_eq_dec N.eq_dec a b then true else false.

(** [str.isspace] on one character, which is also the class [\s] of a
    [str] pattern of [re]: the code points CPython lists as whitespace. *)
Definition is_space (c : codepoint) : bool :=
  ((9 <=? c) && (c <=? 13)) || ((28 <=? c) && (c <=? 32))
  || (c =? 133) || (c =? 160) || (c =? 5760)
  || ((8192 <=? c) && (c <=? 8202))
  || (c =? 8232) || (c =? 8233) || (c =? 8239) || (c =? 8287)
  || (c =? 12288).

(** [s.lstrip()] *)
Fixpoint lstrip (s : pystr) : pystr :=
  match s with
  | [] => []
  | c :: r => if is_space c then lstrip r else s
  end.

(** [s.rstrip()] *)
Definition rstrip (s : pystr) : pystr := rev (lstrip (rev s)).

(** [s.strip()] *)
Definition strip (s : pystr) : pystr := rstrip (lstrip s).

(** [s.startswith(p)], returning what follows the prefix. *)
Fixpoint drop_prefix (p s : pystr) : option pystr :=
  match p, s with
  | [], _ => Some s
  | a :: p', b :: s' => if (a =? b) then drop_prefix p' s' else None
  | _ :: _, [] => None
  end.

Definition all_space (s : pystr) : Prop := Forall (fun c => is_space c = true) s.

Definition head_not_space (s : pystr) : Prop :=
  match s with [] => True | c :: _ => is_space c = false end.

Definition last_not_space (s : pystr) : Prop := head_not_space (rev s).

End PyStr.
Import PyStr.

(** ** Removing the code fence: [re.sub(r"^```json\s*|\s*```$", "", s)] *)

Module Fence.

Definition backtick : codepoint := 96.
Definition newline : codepoint := 10.

(** The marker [```json] of the first alternative. *)
Definition open_marker : pystr := lit "```json".
Definition close_marker : pystr := [backtick; backtick; backtick].

(** [$] without [re.MULTILINE]: the end of the string, or just before a
    newline that is the last character of the string. *)
Definition at_dollar (s : pystr) : bool :=
  match s with
  | [] => true
  | [c] => c =? newline
  | _ => false
  end.

(** The second alternative, [\s*```$], tried at the head of [s]: what is
    left of [s] after the match.  [\s*] is greedy and a backtick is no
    whitespace, so giving back whitespace never helps. *)
Definition match_close (s : pystr) : option pystr :=
  match drop_prefix close_marker (lstrip s) with
  | Some r => if at_dollar r then Some r else None
  | None => None
  end.

(** The scan of [re.sub] from a position that is not the start of the
    string, where [^] cannot match: the leftmost match of the second
    alternative is deleted.  What follows such a match is empty or one
    newline, where no further match exists, so it is copied. *)
Fixpoint scan (s : pystr) : pystr :=
  match match_close s with
  | Some r => r
  | None =>
      match s with
      | [] => []
      | c :: s' => c :: scan s'
      end
  end.

(** The whole substitution: at position 0 the first alternative,
    [^```json\s*], is tried first. *)
Definition re_sub_fence (s : pystr) : pystr :=
  match drop_prefix open_marker s with
  | Some r => scan (lstrip r)
  | None => scan s
  end.

(** Lines 54 to 56 (and 82 to 84) of [gemini_viz.py]: the response text
    is stripped, stripped again and the fence removed. *)
Definition clean_output (text : pystr) : pystr :=
  let raw_output := strip text in
  re_sub_fence (strip raw_output).

End Fence.

(** ** JSON values, as [json.loads] builds them *)

Module Json.

(** [None], [bool], [int], [float] (the 64 bits of the double), [str],
    [list] and [dict] (keys in insertion order, each key once). *)
Inductive json : Type :=
| JNull
| JBool (b : bool)
| JInt (n : Z)
| JFloat (bits : N)
| JString (s : pystr)
| JArray (items : list json)
| JObject (members : list (pystr * json)).

(** [d.get(key)] on the members of a [dict]. *)
Fixpoint dict_get (members : list (pystr * json)) (key : pystr) : option json :=
  match members with
  | [] => None
  | (k, v) :: rest => if PyStr.eqb k key then Some v else dict_get rest key
  end.

(** [d[key] = v] on the members of a [dict]: a present key keeps its
    place and takes the new value, a new key goes last. *)
Fixpoint dict_set (members : list (pystr * json)) (key : pystr) (v : json)
  : list (pystr * json) :=
  match members with
  | [] => [(key, v)]
  | (k, w) :: rest =>
      if PyStr.eqb k key then (k, v) :: rest else (k, w) :: dict_set rest key v
  end.

Definition is_object (v : json) : bool :=
  match v with JObject _ => true | _ => false end.

(** [v == "..."] for a value against a string literal. *)
Definition eq_str (v : json) (s : pystr) : bool :=
  match v with JString t => PyStr.eqb t s | _ => false end.

End Json.
Import Json.

(** ** Exceptions, events and the monad of the scripts *)

Module Py.

(** The exception classes the scripts meet.  [SystemExit] is a
    [BaseException] that [except Exception] does not catch; all the
    others are subclasses of [Exception]. *)
Inductive exn : Type :=
| SystemExit (code : Z)
| ModuleNotFoundError (msg : pystr)
| JSONDecodeError (msg : pystr)
| KeyError (key : pystr)
| TypeError (msg : pystr)
| ValueError (msg : pystr)
| IndexError (msg : pystr)
| Exception (msg : pystr).

(** The classes of [Exception] that a library call may raise. *)
Inductive error_class : Type :=
| CModuleNotFoundError
| CJSONDecodeError
| CKeyError
| CTypeError
| CValueError
| CIndexError
| COther.

(** The exception of class [cls] with message [msg]. *)
Definition error (cls : error_class) (msg : pystr) : exn :=
  match cls with
  | CModuleNotFoundError => ModuleNotFoundError msg
  | CJSONDecodeError => JSONDecodeError msg
  | CKeyError => KeyError msg
  | CTypeError => TypeError msg
  | CValueError => ValueError msg
  | CIndexError => IndexError msg
  | COther => Exception msg
  end.

Definition is_Exception (e : exn) : bool :=
  match e with SystemExit _ => false | _ => true end.

Definition is_JSONDecodeError (e : exn) : bool :=
  match e with JSONDecodeError _ => true | _ => false end.

Definition is_ModuleNotFoundError (e : exn) : bool :=
  match e with ModuleNotFoundError _ => true | _ => false end.

(** [str(e)]; a [KeyError] shows the [repr] of its key, which for the
    keys of the scripts (ASCII words) is the key between single quotes. *)
Definition exn_str (e : exn) : pystr :=
  match e with
  | SystemExit c => []
  | KeyError k => lit "'" ++ k ++ lit "'"
  | ModuleNotFoundError m | JSONDecodeError m | TypeError m
  | ValueError m | IndexError m | Exception m => m
  end.

Inductive stream : Type := Stdout | Stderr.

(** The three chart styles of the renderer. *)
Inductive chart : Type := Bar | Pie | Line.

(** What a run does that can be observed from outside. *)
Inductive event : Type :=
| EvPrint (file : stream) (obj : json)
    (** [print(json.dumps(obj), file=file)]: one line holding the JSON text of [obj] *)
| EvGenerate (prompt : pystr)
    (** [model.generate_content(prompt)] *)
| EvFigure
    (** [plt.figure(figsize=(10, 6))] *)
| EvPlot (kind : chart) (labels values : list json) (title : json)
    (** the plotting calls of one branch of the renderer *)
| EvSavefig
    (** [plt.tight_layout()], [plt.savefig(buf, format='png')] and [b64encode] *)
| EvClose
    (** [plt.close()] *)
| EvTraceback (e : exn).
    (** the interpreter's traceback of an uncaught exception, on standard error *)

Definition trace := list event.

(** The state of a run: what has happened so far, and the local
    variables that a [try] body assigns and its handlers read. *)
Record state : Type := mkState {
  events : trace;
  vars : list (string * pystr)
}.

Definition initial : state := mkState [] [].

(** What an expression without effects gives: a value or an exception. *)
Definition result (A : Type) : Type := (exn + A)%type.

(** A computation reads and updates the state, and returns or raises. *)
Definition M (A : Type) : Type := state -> state * result A.

Definition lift {A} (r : result A) : M A := fun st => (st, r).

Definition ret {A} (a : A) : M A := fun st => (st, inr a).

Definition raise {A} (e : exn) : M A := fun st => (st, inl e).

Definition bind {A B} (m : M A) (k : A -> M B) : M B :=
  fun st =>
    match m st with
    | (st', inr a) => k a st'
    | (st', inl e) => (st', inl e)
    end.

Definition emit (ev : event) : M unit :=
  fun st => (mkState (events st ++ [ev]) (vars st), inr tt).

(** [name = value] for a local variable. *)
Definition assign (name : string) (value : pystr) : M unit :=
  fun st => (mkState (events st) ((name, value) :: vars st), inr tt).

Fixpoint lookup_var (name : string) (vs : list (string * pystr)) : pystr :=
  match vs with
  | [] => []
  | (n, v) :: rest => if String.eqb n name then v else lookup_var name rest
  end.

(** The current value of a local variable. *)
Definition read (name : string) : M pystr :=
  fun st => (st, inr (lookup_var name (vars st))).

(** [try: body except <classes>: handler]; [catches e] tells whether a
    clause names the class of [e], otherwise [e] goes on. *)
Definition try_except {A} (body : M A) (catches : exn -> bool) (handler : exn -> M A)
  : M A :=
  fun st =>
    match body st with
    | (st', inl e) => if catches e then handler e st' else (st', inl e)
    | r => r
    end.

(** [sys.exit(code)] *)
Definition sys_exit {A} (code : Z) : M A := raise (SystemExit code).

(** *** A script run as a process *)

Record process : Type := mkProcess {
  output : trace;
  exit_code : Z
}.

(** The interpreter runs the script's top level: a [SystemExit] sets
    the exit status, any other uncaught exception is reported as a
    traceback on standard error with exit status 1. *)
Definition run (script : M unit) : process :=
  match script initial with
  | (st, inr _) => mkProcess (events st) 0
  | (st, inl (SystemExit code)) => mkProcess (events st) code
  | (st, inl e) => mkProcess (events st ++ [EvTraceback e]) 1
  end.

Definition on_stdout (ev : event) : bool :=
  match ev with EvPrint Stdout _ => true | _ => false end.

Definition on_stderr (ev : event) : bool :=
  match ev with EvPrint Stderr _ | EvTraceback _ => true | _ => false end.

Definition stdout (p : process) : trace := filter on_stdout (output p).
Definition stderr (p : process) : trace := filter on_stderr (output p).

End Py.
Import Py.

Declare Scope py_scope.
Delimit Scope py_scope with py.
Notation "x <- m ;; k" := (bind m (fun x => k))
  (at level 100, m at next level, right associativity) : py_scope.
Notation "m ;;; k" := (bind m (fun _ => k))
  (at level 100, right associativity) : py_scope.
Open Scope py_scope.

(** ** What the scripts call outside the repository *)

Module Lib.

(** The answer of a library call: a value, or an exception of some
    subclass of [Exception] with its message. *)
Inductive outcome (A : Type) : Type :=
| Returns (a : A)
| Raises (cls : error_class) (msg : pystr).
Arguments Returns {A} a.
Arguments Raises {A} cls msg.

(** One process run: its environment and the answers of the libraries. *)
Record World : Type := mkWorld {
  GEMINI_API_KEY : option pystr;
    (** [os.environ.get("GEMINI_API_KEY")] *)
  genai_installed : bool;
    (** whether [import google.generativeai] finds the module *)
  gemini : nat -> pystr -> outcome pystr;
    (** [model.generate_content(prompt).text] for the call after [n] earlier ones *)
  loads : pystr -> outcome json;
    (** [json.loads]; a text that is not JSON raises [JSONDecodeError] *)
  read_csv : pystr -> outcome (pystr * pystr);
    (** [pd.read_csv(io.StringIO(s))], as [df.head().to_string()] and
        the text of [df.columns.tolist()] *)
  py_str : json -> pystr;
    (** [str(v)] for a value that is not a [str] *)
  draw : chart -> list json -> list json -> json -> outcome unit;
    (** the plotting calls of one branch of the renderer *)
  savefig : option (chart * list json * list json * json) -> outcome pystr
    (** [plt.tight_layout], [plt.savefig] and [base64.b64encode] on the
        current figure, given what was drawn on it: the encoded PNG *)
}.

Definition nl : pystr := [10].
Definition dq : pystr := [34].

Section Operations.

Variable W : World.

(** [import google.generativeai as genai] *)
Definition import_genai : M unit :=
  if genai_installed W then ret tt
  else raise (ModuleNotFoundError (lit "No module named 'google'")).

(** [os.environ.get("GEMINI_API_KEY")] *)
Definition os_environ_get_key : option pystr := GEMINI_API_KEY W.

(** [not v] for [v] a [str] or [None] *)
Definition py_not (v : option pystr) : bool :=
  match v with
  | None | Some [] => true
  | Some (_ :: _) => false
  end.

(** [json.dumps(obj, **kw)] where [kw] names the keyword arguments that
    are not parameters of [dumps]: they are handed to the constructor
    of [JSONEncoder], which has no such parameter and raises.  The
    result stands for the JSON text of [obj]. *)
Definition json_dumps (obj : json) (kw : list string) : M json :=
  match kw with
  | [] => ret obj
  | k :: _ =>
      raise (TypeError (lit "JSONEncoder.__init__() got an unexpected keyword argument '"
                        ++ lit k ++ lit "'"))
  end.

(** What [json.dumps(obj, file=sys.stderr)] raises. *)
Definition dumps_file_message : pystr :=
  lit "JSONEncoder.__init__() got an unexpected keyword argument '"
  ++ lit "file" ++ lit "'".

Definition dumps_file_error : exn := TypeError dumps_file_message.

(** [print(text, file=file)] *)
Definition print (text : json) (file : stream) : M unit := emit (EvPrint file text).

(** [json.loads(s)] *)
Definition json_loads (s : pystr) : M json :=
  match loads W s with
  | Returns v => ret v
  | Raises cls msg => raise (error cls msg)
  end.

(** The prompts sent so far. *)
Fixpoint prompts (t : trace) : list pystr :=
  match t with
  | [] => []
  | EvGenerate p :: r => p :: prompts r
  | _ :: r => prompts r
  end.

(** [model.generate_content(prompt).text] *)
Definition generate_content (prompt : pystr) : M pystr :=
  fun st =>
    let st' := mkState (events st ++ [EvGenerate prompt]) (vars st) in
    match gemini W (List.length (prompts (events st))) prompt with
    | Returns text => (st', inr text)
    | Raises cls msg => (st', inl (error cls msg))
    end.

(** [v[key]] for a string [key] *)
Definition subscript (v : json) (key : pystr) : result json :=
  match v with
  | JObject members =>
      match dict_get members key with
      | Some x => inr x
      | None => inl (KeyError key)
      end
  | JArray _ => inl (TypeError (lit "list indices must be integers or slices, not str"))
  | JString _ => inl (TypeError (lit "string indices must be integers, not 'str'"))
  | _ => inl (TypeError (lit "object is not subscriptable"))
  end.

Definition getitem (v : json) (key : pystr) : M json := lift (subscript v key).

(** [for x in v]: the items of a list, the keys of a dict, the
    characters of a string. *)
Definition elements (v : json) : result (list json) :=
  match v with
  | JArray items => inr items
  | JObject members => inr (map (fun kv => JString (fst kv)) members)
  | JString s => inr (map (fun c => JString [c]) s)
  | _ => inl (TypeError (lit "object is not iterable"))
  end.

Definition iterate (v : json) : M (list json) := lift (elements v).

(** [[f(x) for x in xs]]: the first exception ends the loop. *)
Fixpoint map_result {A B} (f : A -> result B) (xs : list A) : result (list B) :=
  match xs with
  | [] => inr []
  | x :: r =>
      match f x with
      | inl e => inl e
      | inr y =>
          match map_result f r with
          | inl e => inl e
          | inr ys => inr (y :: ys)
          end
      end
  end.

Definition comprehension {A B} (f : A -> result B) (xs : list A) : M (list B) :=
  lift (map_result f xs).

(** [{v}] inside an f-string *)
Definition format_value (v : json) : pystr :=
  match v with
  | JString s => s
  | _ => py_str W v
  end.

(** The dictionary [{"error": msg}] *)
Definition error_dict (msg : pystr) : json := JObject [(lit "error", JString msg)].

End Operations.

End Lib.
Import Lib.

(** ** [Nano-Q/gemini_viz.py] *)

Module Viz.

Definition meta_prompt_system : pystr :=
  List.concat
    [nl; lit "      You are a meta-prompt generator."; nl;
     lit "      Your job is to analyze input text/data and decide:"; nl;
     lit "      1. The best chart type to visualize it (bar, pie, or line).";
     nl; lit "      2. A concise (<=50 words) optimized summarization prompt.";
     nl; lit "      Respond in this JSON format:"; nl; lit "      {"; nl;
     lit "        "; dq; lit "chart_type_suggestion"; dq; lit ": "; dq;
     lit "<bar|pie|line>"; dq; lit ","; nl; lit "        "; dq;
     lit "optimized_prompt"; dq; lit ": "; dq; lit "<prompt text>"; dq; nl;
     lit "      }"; nl; lit "    "].

Definition data_extraction_system : pystr :=
  List.concat
    [nl;
     lit "      You are a summarization model that outputs JSON for chart visualization.";
     nl;
     lit "      You will receive a user prompt (guiding instruction) and a long text/data.";
     nl; lit "      Return data in this exact structure:"; nl; lit "      {";
     nl; lit "        "; dq; lit "title"; dq; lit ": "; dq;
     lit "<short summary title>"; dq; lit ","; nl; lit "        "; dq;
     lit "data_points"; dq; lit ": ["; nl; lit "          {"; dq; lit "label";
     dq; lit ": "; dq; lit "<category/topic>"; dq; lit ", "; dq; lit "value";
     dq; lit ": <number>, "; dq; lit "summary"; dq; lit ": "; dq;
     lit "<one-line summary>"; dq; lit "}"; nl; lit "        ]"; nl;
     lit "      }"; nl; lit "    "].

(** The end of the text built for CSV input (line 34). *)
Definition csv_question : pystr :=
  List.concat
    [nl; nl;
     lit "Based on this CSV data, what would be the best chart type (bar, pie, or line) to visualize key insights, and what would be a concise (<=50 words) optimized summarization prompt to extract data points for that chart?"].

(** The warning sign and its variation selector, then the message. *)
Definition module_not_found_message : pystr :=
  [9888; 65039] ++ lit " Gemini module not found. Skipping AI generation.".

Section Script.

Variable W : World.

(** Lines 13 to 25: the import, the credential check, the model object.
    In both [print] calls [file=sys.stderr] is an argument of
    [json.dumps]. *)
Definition configure : M unit :=
  try_except
    (import_genai W ;;;
     if py_not (os_environ_get_key W) then
       text <- json_dumps (error_dict (lit "GEMINI_API_KEY environment variable not set."))
                 ["file"%string] ;;
       print text Stdout ;;;
       sys_exit 1
     else ret tt)
    is_ModuleNotFoundError
    (fun _ =>
       text <- json_dumps (error_dict module_not_found_message) ["file"%string] ;;
       print text Stdout ;;;
       sys_exit 1).

(** The f-string of line 34. *)
Definition csv_description (head columns : pystr) : pystr :=
  lit "CSV Data Description:" ++ nl ++ head ++ lit "... (truncated)" ++ nl
  ++ lit "Columns: " ++ columns ++ csv_question.

(** Lines 28 to 37: the text handed to Stage 1. *)
Definition text_to_process (input_data : pystr) (is_csv : bool) : M pystr :=
  if is_csv then
    try_except
      (match read_csv W input_data with
       | Returns (head, columns) => ret (csv_description head columns)
       | Raises cls msg => raise (error cls msg)
       end)
      is_Exception
      (fun e =>
         text <- json_dumps (error_dict (lit "Failed to read CSV data: " ++ exn_str e))
                   ["file"%string] ;;
         print text Stdout ;;;
         sys_exit 1)
  else ret input_data.

Definition meta_prompt (text : pystr) : pystr :=
  meta_prompt_system ++ nl ++ lit "TEXT: " ++ text.

(** Lines 51 to 65, Stage 1: the chart type and the optimized prompt. *)
Definition stage1 (text : pystr) : M (json * json) :=
  assign "raw_meta_output" [] ;;;
  try_except
    (response_text <- generate_content W (meta_prompt text) ;;
     assign "raw_meta_output" (strip response_text) ;;;
     raw_meta_output <- read "raw_meta_output" ;;
     let clean_output := Fence.re_sub_fence (strip raw_meta_output) in
     meta_output <- json_loads W clean_output ;;
     chart_type <- getitem meta_output (lit "chart_type_suggestion") ;;
     optimized_prompt <- getitem meta_output (lit "optimized_prompt") ;;
     ret (chart_type, optimized_prompt))
    is_Exception
    (fun e =>
       if is_JSONDecodeError e then
         raw_meta_output <- read "raw_meta_output" ;;
         text <- json_dumps
                   (JObject [(lit "error",
                              JString (lit "Failed to parse meta-prompt JSON from Gemini: "
                                       ++ exn_str e));
                             (lit "raw_output", JString raw_meta_output)]) [] ;;
         print text Stderr ;;;
         sys_exit 1
       else
         text <- json_dumps (error_dict (lit "Failed to generate meta-prompt: " ++ exn_str e))
                   ["file"%string] ;;
         print text Stdout ;;;
         sys_exit 1).

Definition data_prompt (optimized_prompt : json) (input_data : pystr) : pystr :=
  data_extraction_system ++ nl ++ lit "PROMPT: " ++ format_value W optimized_prompt
  ++ nl ++ lit "TEXT/DATA: " ++ input_data.

(** Lines 79 to 91, Stage 2: the chart data. *)
Definition stage2 (optimized_prompt : json) (input_data : pystr) : M json :=
  assign "raw_chart_data_output" [] ;;;
  try_except
    (response_text <- generate_content W (data_prompt optimized_prompt input_data) ;;
     assign "raw_chart_data_output" (strip response_text) ;;;
     raw_chart_data_output <- read "raw_chart_data_output" ;;
     let clean_output := Fence.re_sub_fence (strip raw_chart_data_output) in
     json_loads W clean_output)
    is_Exception
    (fun e =>
       if is_JSONDecodeError e then
         raw_chart_data_output <- read "raw_chart_data_output" ;;
         text <- json_dumps
                   (JObject [(lit "error",
                              JString (lit "Failed to parse chart data JSON from Gemini: "
                                       ++ exn_str e));
                             (lit "raw_output", JString raw_chart_data_output)]) [] ;;
         print text Stderr ;;;
         sys_exit 1
       else
         text <- json_dumps (error_dict (lit "Failed to extract chart data: " ++ exn_str e))
                   ["file"%string] ;;
         print text Stdout ;;;
         sys_exit 1).

(** The plotting calls of one branch. *)
Definition plot (kind : chart) (labels values : list json) (title : json) : M unit :=
  emit (EvPlot kind labels values title) ;;;
  match draw W kind labels values title with
  | Returns _ => ret tt
  | Raises cls msg => raise (error cls msg)
  end.

(** What the current figure shows: the last plot since it was opened. *)
Fixpoint drawn (t : trace) (cur : option (chart * list json * list json * json))
  : option (chart * list json * list json * json) :=
  match t with
  | [] => cur
  | EvFigure :: r => drawn r None
  | EvPlot k l v ti :: r => drawn r (Some (k, l, v, ti))
  | _ :: r => drawn r cur
  end.

(** Lines 119 to 123: the figure saved as PNG and encoded. *)
Definition save_base64 : M pystr :=
  fun st =>
    let st' := mkState (events st ++ [EvSavefig]) (vars st) in
    match savefig W (drawn (events st) None) with
    | Returns b => (st', inr b)
    | Raises cls msg => (st', inl (error cls msg))
    end.

(** Lines 94 to 130, Stage 3: the chart. *)
Definition stage3 (chart_type chart_data : json) : M json :=
  emit EvFigure ;;;
  try_except
    (data_points <- getitem chart_data (lit "data_points") ;;
     items <- iterate data_points ;;
     labels <- comprehension (fun dp => subscript dp (lit "label")) items ;;
     data_points' <- getitem chart_data (lit "data_points") ;;
     items' <- iterate data_points' ;;
     values <- comprehension (fun dp => subscript dp (lit "value")) items' ;;
     title <- getitem chart_data (lit "title") ;;
     (if eq_str chart_type (lit "bar") then plot Bar labels values title
      else if eq_str chart_type (lit "pie") then plot Pie labels values title
      else if eq_str chart_type (lit "line") then plot Line labels values title
      else
        text <- json_dumps
                  (error_dict (lit "Unsupported chart type: " ++ format_value W chart_type))
                  ["file"%string] ;;
        print text Stdout ;;;
        sys_exit 1) ;;;
     image_base64 <- save_base64 ;;
     emit EvClose ;;;
     ret (JObject [(lit "image", JString image_base64); (lit "title", title)]))
    is_Exception
    (fun e =>
       emit EvClose ;;;
       text <- json_dumps (error_dict (lit "Failed to render chart: " ++ exn_str e))
                 ["file"%string] ;;
       print text Stdout ;;;
       sys_exit 1).

(** [generate_visualization(input_data, is_csv)] *)
Definition generate_visualization (input_data : pystr) (is_csv : bool) : M json :=
  configure ;;;
  text <- text_to_process input_data is_csv ;;
  meta <- stage1 text ;;
  let (chart_type, optimized_prompt) := meta in
  chart_data <- stage2 optimized_prompt input_data ;;
  stage3 chart_type chart_data.

(** The [__main__] block, after [argparse] has read the arguments. *)
Definition main (input_data : pystr) (csv : bool) : M unit :=
  result <- generate_visualization input_data csv ;;
  text <- json_dumps result [] ;;
  print text Stdout.

End Script.

End Viz.

(** ** [gemini_qa.py] *)

Module QA.

Section Script.

Variable W : World.

(** The f-string of lines 18 to 24. *)
Definition qa_prompt (context_prefix input_data question : pystr) : pystr :=
  List.concat
    [nl;
     lit "          You are a helpful assistant. Answer the user's question based ONLY on the provided ";
     context_prefix; lit ". If the answer is not in the "; context_prefix;
     lit ", state that you don't know."; nl; nl; lit "          ";
     context_prefix; lit ": "; input_data; nl; lit "          Question: "; question;
     nl; lit "          Answer:"; nl; lit "          "].

(** [answer_question(input_data, question, is_csv)] *)
Definition answer_question (input_data question : pystr) (is_csv : bool) : M json :=
  try_except
    (import_genai W ;;;
     (if py_not (os_environ_get_key W) then
        text <- json_dumps (error_dict (lit "GEMINI_API_KEY environment variable not set.")) [] ;;
        print text Stderr ;;;
        sys_exit 1
      else ret tt) ;;;
     let context_prefix := if negb is_csv then lit "Text" else lit "CSV Data" in
     try_except
       (response_text <- generate_content W (qa_prompt context_prefix input_data question) ;;
        let answer := strip response_text in
        ret (JObject [(lit "answer", JString answer)]))
       is_Exception
       (fun e =>
          text <- json_dumps (error_dict (exn_str e)) [] ;;
          print text Stderr ;;;
          sys_exit 1))
    is_ModuleNotFoundError
    (fun _ =>
       text <- json_dumps (error_dict Viz.module_not_found_message) [] ;;
       print text Stderr ;;;
       sys_exit 1).

(** The [__main__] block, after [argparse] has read the arguments. *)
Definition main (input_data question : pystr) (csv : bool) : M unit :=
  result <- answer_question input_data question csv ;;
  text <- json_dumps result [] ;;
  print text Stdout.

End Script.

End QA.

(** ** [nano-summarizer-website/gemini_qa.py] *)

Module WebQA.

Definition lbrace : codepoint := 123.
Definition rbrace : codepoint := 125.

Definition is_digit (c : codepoint) : bool := (48 <=? c) && (c <=? 57).

(** The value of a replacement field: a name that is empty or a number
    asks for a positional argument, and [format] is called with none;
    any other name is looked up among the keyword arguments. *)
Fixpoint lookup_kwarg (kwargs : list (pystr * pystr)) (name : pystr) : option pystr :=
  match kwargs with
  | [] => None
  | (k, v) :: rest => if PyStr.eqb k name then Some v else lookup_kwarg rest name
  end.

Definition get_field (kwargs : list (pystr * pystr)) (name : pystr) : result pystr :=
  if forallb is_digit name then
    inl (IndexError (lit "Replacement index out of range for positional args tuple"))
  else
    match lookup_kwarg kwargs name with
    | Some v => inr v
    | None => inl (KeyError name)
    end.

Definition prepend (s : pystr) (r : result pystr) : result pystr :=
  match r with
  | inr out => inr (s ++ out)
  | inl e => inl e
  end.

(** [template.format(name=value, ...)] with [str] values, for replacement fields
    that are plain names (the script's template has no conversion, format
    spec, attribute or index).  The template is read from left to right:
    doubled braces stand for one brace, [{name}] is replaced by the value
    of [name], which is copied and not read again.  [field] is the name
    read so far when inside a replacement field. *)
Fixpoint str_format (kwargs : list (pystr * pystr)) (template : pystr)
    (field : option pystr) : result pystr :=
  match template with
  | [] =>
      match field with
      | None => inr []
      | Some _ => inl (ValueError (lit "expected '}' before end of string"))
      end
  | c :: r =>
      match field with
      | Some name =>
          if c =? rbrace then
            match get_field kwargs name with
            | inr v => prepend v (str_format kwargs r None)
            | inl e => inl e
            end
          else if c =? lbrace then
            inl (ValueError (lit "unexpected '{' in field name"))
          else str_format kwargs r (Some (name ++ [c]))
      | None =>
          if c =? lbrace then
            match r with
            | [] => inl (ValueError (lit "Single '{' encountered in format string"))
            | c2 :: r2 =>
                if c2 =? lbrace then prepend [lbrace] (str_format kwargs r2 None)
                else str_format kwargs r (Some [])
            end
          else if c =? rbrace then
            match r with
            | c2 :: r2 =>
                if c2 =? rbrace then prepend [rbrace] (str_format kwargs r2 None)
                else inl (ValueError (lit "Single '}' encountered in format string"))
            | [] => inl (ValueError (lit "Single '}' encountered in format string"))
            end
          else prepend [c] (str_format kwargs r None)
      end
  end.

(** The template of lines 15 to 21. *)
Definition qa_prompt : pystr :=
  List.concat
    [nl;
     lit "      You are a helpful assistant. Answer the user's question based ONLY on the provided text. If the answer is not in the text, state that you don't know.";
     nl; nl; lit "      Text: {text}"; nl; lit "      Question: {question}"; nl;
     lit "      Answer:"; nl; lit "      "].

Section Script.

Variable W : World.

(** [qa_prompt.format(text=text, question=question)] *)
Definition format_prompt (text question : pystr) : M pystr :=
  lift (str_format [(lit "text", text); (lit "question", question)] qa_prompt None).

(** [answer_question(text, question)] *)
Definition answer_question (text question : pystr) : M json :=
  (if py_not (os_environ_get_key W) then
     text <- json_dumps (error_dict (lit "GEMINI_API_KEY environment variable not set.")) [] ;;
     print text Stderr ;;;
     sys_exit 1
   else ret tt) ;;;
  try_except
    (prompt <- format_prompt text question ;;
     response_text <- generate_content W prompt ;;
     let answer := strip response_text in
     ret (JObject [(lit "answer", JString answer)]))
    is_Exception
    (fun e =>
       text <- json_dumps (error_dict (exn_str e)) [] ;;
       print text Stderr ;;;
       sys_exit 1).

(** The script from its first line: the import of line 2, then the
    [__main__] block on [sys.argv]. *)
Definition main (argv : list pystr) : M unit :=
  import_genai W ;;;
  (if (List.length argv <? 3)%nat then
     text <- json_dumps (error_dict (lit "Text and question not provided for Q&A.")) [] ;;
     print text Stderr ;;;
     sys_exit 1
   else ret tt) ;;;
  let input_text := nth 1 argv [] in
  let input_question := nth 2 argv [] in
  result <- answer_question input_text input_question ;;
  text <- json_dumps result [] ;;
  print text Stdout.

End Script.

End WebQA.

(** ** A reference [json.loads]

    The decoder of the standard library is a parameter of every
    theorem ([loads] of the [World]).  To run the scripts on concrete
    responses, this is a decoder for the JSON texts without fractions,
    exponents and [\u] escapes; texts outside that fragment are
    reported as undecodable, and the messages carry no position. *)

Module RefJson.

Definition is_ws (c : codepoint) : bool :=
  (c =? 32) || (c =? 9) || (c =? 10) || (c =? 13).

Fixpoint skip_ws (s : pystr) : pystr :=
  match s with
  | c :: r => if is_ws c then skip_ws r else s
  | [] => []
  end.

Definition unescape (c : codepoint) : option codepoint :=
  if c =? 34 then Some 34          (* quote *)
  else if c =? 92 then Some 92     (* backslash *)
  else if c =? 47 then Some 47     (* slash *)
  else if c =? 98 then Some 8      (* b *)
  else if c =? 102 then Some 12    (* f *)
  else if c =? 110 then Some 10    (* n *)
  else if c =? 114 then Some 13    (* r *)
  else if c =? 116 then Some 9     (* t *)
  else None.

Definition push (c : codepoint) (r : option (pystr * pystr)) : option (pystr * pystr) :=
  match r with
  | Some (str, rest) => Some (c :: str, rest)
  | None => None
  end.

(** The characters of a string after its opening quote. *)
Fixpoint parse_string (s : pystr) : option (pystr * pystr) :=
  match s with
  | [] => None
  | c :: r =>
      if c =? 34 then Some ([], r)
      else if c =? 92 then
        match r with
        | e :: r' =>
            match unescape e with
            | Some ch => push ch (parse_string r')
            | None => None
            end
        | [] => None
        end
      else if c <? 32 then None
      else push c (parse_string r)
  end.

Definition is_digit (c : codepoint) : bool := (48 <=? c) && (c <=? 57).

(** The digits at the head of [s], as a number, and what follows. *)
Fixpoint digits (s : pystr) (acc : Z) : Z * pystr :=
  match s with
  | c :: r => if is_digit c then digits r (10 * acc + Z.of_N (c - 48))%Z else (acc, s)
  | [] => (acc, [])
  end.

Definition float_follows (s : pystr) : bool :=
  match s with
  | c :: _ => (c =? 46) || (c =? 101) || (c =? 69)
  | [] => false
  end.

(** An integer: an optional minus sign, then [0] or digits that do
    not start with [0]. *)
Definition parse_int (s : pystr) : option (Z * pystr) :=
  let (neg, body) :=
    match s with
    | 45 :: r => (true, r)
    | _ => (false, s)
    end in
  match body with
  | c :: r =>
      if c =? 48 then
        if float_follows r then None else Some (0%Z, r)
      else if is_digit c then
        let (n, rest) := digits body 0 in
        if float_follows rest then None
        else Some (if neg then (- n)%Z else n, rest)
      else None
  | [] => None
  end.

Fixpoint parse_value (fuel : nat) (s : pystr) {struct fuel} : option (json * pystr) :=
  match fuel with
  | O => None
  | S f =>
      match skip_ws s with
      | [] => None
      | c :: r =>
          if c =? 34 then
            match parse_string r with
            | Some (str, rest) => Some (JString str, rest)
            | None => None
            end
          else if c =? 123 then
            match skip_ws r with
            | 125 :: rest => Some (JObject [], rest)
            | body => parse_members f body []
            end
          else if c =? 91 then
            match skip_ws r with
            | 93 :: rest => Some (JArray [], rest)
            | body => parse_items f body []
            end
          else
            match drop_prefix (lit "null") (c :: r) with
            | Some rest => Some (JNull, rest)
            | None =>
            match drop_prefix (lit "true") (c :: r) with
            | Some rest => Some (JBool true, rest)
            | None =>
            match drop_prefix (lit "false") (c :: r) with
            | Some rest => Some (JBool false, rest)
            | None =>
            match parse_int (c :: r) with
            | Some (n, rest) => Some (JInt n, rest)
            | None => None
            end end end end
      end
  end

(** The members of an object after the opening brace: a key, a colon,
    a value, then a comma and more members or the closing brace. *)
with parse_members (fuel : nat) (s : pystr) (acc : list (pystr * json)) {struct fuel}
  : option (json * pystr) :=
  match fuel with
  | O => None
  | S f =>
      match skip_ws s with
      | 34 :: r =>
          match parse_string r with
          | Some (key, rest) =>
              match skip_ws rest with
              | 58 :: rest1 =>
                  match parse_value f rest1 with
                  | Some (v, rest2) =>
                      let acc' := dict_set acc key v in
                      match skip_ws rest2 with
                      | 44 :: rest3 => parse_members f rest3 acc'
                      | 125 :: rest3 => Some (JObject acc', rest3)
                      | _ => None
                      end
                  | None => None
                  end
              | _ => None
              end
          | None => None
          end
      | _ => None
      end
  end

(** The items of an array after the opening bracket. *)
with parse_items (fuel : nat) (s : pystr) (acc : list json) {struct fuel}
  : option (json * pystr) :=
  match fuel with
  | O => None
  | S f =>
      match parse_value f s with
      | Some (v, rest) =>
          match skip_ws rest with
          | 44 :: rest1 => parse_items f rest1 (acc ++ [v])
          | 93 :: rest1 => Some (JArray (acc ++ [v]), rest1)
          | _ => None
          end
      | None => None
      end
  end.

(** The whole text is one value between optional whitespace. *)
Definition loads (s : pystr) : outcome json :=
  match parse_value (S (List.length s)) s with
  | Some (v, rest) =>
      match skip_ws rest with
      | [] => Returns v
      | _ => Raises CJSONDecodeError (lit "Extra data")
      end
  | None => Raises CJSONDecodeError (lit "Expecting value")
  end.

End RefJson.

(** ** The vocabulary of the properties *)

Module Props.

(** A text that runs from an opening to a closing brace. *)
Definition braced (inner : pystr) : pystr :=
  [WebQA.lbrace] ++ inner ++ [WebQA.rbrace].

(** [t] is the text of the JSON object [obj]: the decoder reads [obj]
    from it, and it runs from an opening to a closing brace. *)
Definition object_text (W : World) (t : pystr) (obj : json) : Prop :=
  loads W t = Returns obj /\ is_object obj = true
  /\ exists inner, t = braced inner.

(** The exceptions of subscripting and iterating are ordinary ones:
    [except Exception] catches them and they are no decoding errors. *)
Definition ordinary (e : exn) : Prop :=
  is_Exception e = true /\ is_JSONDecodeError e = false.

(** The report of an undecodable response, on standard error. *)
Definition parse_report (what msg raw : pystr) : event :=
  EvPrint Stderr
    (JObject [(lit "error", JString (what ++ msg)); (lit "raw_output", JString raw)]).

(** The ways a model presents the text [t]: as it is, or between a
    [```json] line and a [```] line, with any whitespace around. *)
Inductive response_of (t : pystr) : pystr -> Prop :=
| Bare (pre post : pystr) :
    all_space pre -> all_space post ->
    response_of t (pre ++ t ++ post)
| Fenced (pre ws1 ws2 post : pystr) :
    all_space pre -> all_space ws1 -> all_space ws2 -> all_space post ->
    response_of t (pre ++ Fence.open_marker ++ ws1 ++ t ++ ws2
                   ++ Fence.close_marker ++ post).

(** What lines 96 to 98 read from the chart data: the label and the
    value of every data point, in order, and the title. *)
Definition chart_fields (chart_data : json) : result (list json * list json * json) :=
  match subscript chart_data (lit "data_points") with
  | inl e => inl e
  | inr data_points =>
  match elements data_points with
  | inl e => inl e
  | inr items =>
  match map_result (fun dp => subscript dp (lit "label")) items with
  | inl e => inl e
  | inr labels =>
  match map_result (fun dp => subscript dp (lit "value")) items with
  | inl e => inl e
  | inr values =>
  match subscript chart_data (lit "title") with
  | inl e => inl e
  | inr title => inr (labels, values, title)
  end end end end end.

(** The branch of the renderer that a chart type selects, if any. *)
Definition chart_kind (chart_type : json) : option chart :=
  if eq_str chart_type (lit "bar") then Some Bar
  else if eq_str chart_type (lit "pie") then Some Pie
  else if eq_str chart_type (lit "line") then Some Line
  else None.

(** *** Observations on a finished process *)

(** The process reports an error and exits: something was written to
    standard error (a JSON error object or a traceback) and the exit
    status is not zero. *)
Definition fails (p : process) : Prop := exit_code p <> 0%Z /\ stderr p <> [].

(** A JSON object with an ["error"] key was printed on standard error. *)
Definition reports_json_error (p : process) : Prop :=
  exists members msg,
    In (EvPrint Stderr (JObject members)) (output p)
    /\ dict_get members (lit "error") = Some msg.

(** On success exactly one JSON object is on standard output; on
    failure nothing is. *)
Definition stdout_contract (p : process) : Prop :=
  (exit_code p = 0%Z /\ exists obj, stdout p = [EvPrint Stdout obj])
  \/ (exit_code p <> 0%Z /\ stdout p = []).

(** Whether a figure is open at the end of a trace, given whether one
    was open at its start. *)
Fixpoint figure_left_open (t : trace) (open : bool) : bool :=
  match t with
  | [] => open
  | EvFigure :: r => figure_left_open r true
  | EvClose :: r => figure_left_open r false
  | _ :: r => figure_left_open r open
  end.

Definition is_rendering (ev : event) : bool :=
  match ev with EvPlot _ _ _ _ | EvSavefig => true | _ => false end.

(** [key] is not a key of the object [v]. *)
Definition absent (key : pystr) (v : json) : Prop :=
  exists members, v = JObject members /\ dict_get members key = None.

(** The template of the website script with both placeholders
    replaced. *)
Definition interpolated_prompt (text question : pystr) : pystr :=
  List.concat
    [nl;
     lit "      You are a helpful assistant. Answer the user's question based ONLY on the provided text. If the answer is not in the text, state that you don't know.";
     nl; nl; lit "      Text: "; text; nl; lit "      Question: "; question; nl;
     lit "      Answer:"; nl; lit "      "].

Definition has_brace (s : pystr) : Prop := In WebQA.lbrace s \/ In WebQA.rbrace s.

(** Building the prompt of the website script raises. *)
Definition format_raises (text question : pystr) : Prop :=
  exists e,
    WebQA.str_format [(lit "text", text); (lit "question", question)]
      WebQA.qa_prompt None = inl e.

(** The statement that a brace in the input breaks the website
    script: for some text and question, one of them holding a brace,
    building the prompt raises, so that even with the module installed
    and the key set the run sends no prompt and exits with an error. *)
Definition brace_breaks_prompt : Prop :=
  exists text question,
    (has_brace text \/ has_brace question)
    /\ format_raises text question
    /\ forall W script,
         genai_installed W = true -> py_not (GEMINI_API_KEY W) = false ->
         let p := run (WebQA.main W [script; text; question]) in
         prompts (output p) = [] /\ exit_code p <> 0%Z.

(** The context word of [gemini_qa.py]. *)
Definition context_prefix (is_csv : bool) : pystr :=
  if negb is_csv then lit "Text" else lit "CSV Data".

(** *** How far a visualization run gets *)

Section Milestones.

Variable W : World.
Variable input_data : pystr.
Variable is_csv : bool.

(** The module is there and the API key is set. *)
Definition configured : Prop :=
  genai_installed W = true /\ py_not (GEMINI_API_KEY W) = false.

(** [text] is what Stage 1 is asked about. *)
Definition stage1_text (text : pystr) : Prop :=
  if is_csv then
    exists head columns,
      read_csv W input_data = Returns (head, columns)
      /\ text = Viz.csv_description head columns
  else text = input_data.

(** The model answers the Stage-1 call with [response]. *)
Definition stage1_response (response : pystr) : Prop :=
  configured
  /\ exists text, stage1_text text
                /\ gemini W 0 (Viz.meta_prompt text) = Returns response.

(** The Stage-1 response decodes to [meta]. *)
Definition stage1_object (meta : json) : Prop :=
  exists response,
    stage1_response response
    /\ loads W (Fence.clean_output response) = Returns meta.

(** Stage 1 ends with this chart type and this optimized prompt. *)
Definition stage1_suggestion (chart_type optimized_prompt : json) : Prop :=
  exists meta,
    stage1_object meta
    /\ subscript meta (lit "chart_type_suggestion") = inr chart_type
    /\ subscript meta (lit "optimized_prompt") = inr optimized_prompt.

(** The model answers the Stage-2 call, made with [optimized_prompt],
    with [response]. *)
Definition stage2_response (optimized_prompt : json) (response : pystr) : Prop :=
  gemini W 1 (Viz.data_prompt W optimized_prompt input_data) = Returns response.

(** Stage 2, asked with [optimized_prompt], ends with [chart_data]. *)
Definition stage2_object (optimized_prompt chart_data : json) : Prop :=
  exists response,
    stage2_response optimized_prompt response
    /\ loads W (Fence.clean_output response) = Returns chart_data.

(** Some data point of [chart_data] is an object without [key]. *)
Definition point_lacks (key : pystr) (chart_data : json) : Prop :=
  exists data_points items dp,
    subscript chart_data (lit "data_points") = inr data_points
    /\ elements data_points = inr items
    /\ In dp items /\ absent key dp.

(** The three cases of the specification: no credential, a response
    that is not JSON once the fence is removed, an expected key that
    the decoded object does not have. *)
Inductive listed_cause : Prop :=
| NoCredential :
    py_not (GEMINI_API_KEY W) = true -> listed_cause
| Stage1NotJson response msg :
    stage1_response response ->
    loads W (Fence.clean_output response) = Raises CJSONDecodeError msg ->
    listed_cause
| Stage2NotJson chart_type optimized_prompt response msg :
    stage1_suggestion chart_type optimized_prompt ->
    stage2_response optimized_prompt response ->
    loads W (Fence.clean_output response) = Raises CJSONDecodeError msg ->
    listed_cause
| Stage1KeyAbsent meta key :
    stage1_object meta ->
    key = lit "chart_type_suggestion" \/ key = lit "optimized_prompt" ->
    absent key meta -> listed_cause
| Stage2KeyAbsent chart_type optimized_prompt chart_data key :
    stage1_suggestion chart_type optimized_prompt ->
    stage2_object optimized_prompt chart_data ->
    key = lit "title" \/ key = lit "data_points" ->
    absent key chart_data -> listed_cause
| PointKeyAbsent chart_type optimized_prompt chart_data key :
    stage1_suggestion chart_type optimized_prompt ->
    stage2_object optimized_prompt chart_data ->
    key = lit "label" \/ key = lit "value" ->
    point_lacks key chart_data -> listed_cause.

(** The other ways a run ends in an error. *)
Inductive other_cause : Prop :=
| NoModule :
    genai_installed W = false -> other_cause
| CsvUnreadable cls msg :
    is_csv = true -> read_csv W input_data = Raises cls msg -> other_cause
| Stage1CallRaises text cls msg :
    configured -> stage1_text text ->
    gemini W 0 (Viz.meta_prompt text) = Raises cls msg -> other_cause
| Stage1DecoderRaises response cls msg :
    stage1_response response ->
    loads W (Fence.clean_output response) = Raises cls msg ->
    cls <> CJSONDecodeError -> other_cause
| Stage1FieldFails meta key e :
    stage1_object meta ->
    subscript meta key = inl e ->
    key = lit "chart_type_suggestion" \/ key = lit "optimized_prompt" ->
    other_cause
| Stage2CallRaises chart_type optimized_prompt cls msg :
    stage1_suggestion chart_type optimized_prompt ->
    gemini W 1 (Viz.data_prompt W optimized_prompt input_data) = Raises cls msg ->
    other_cause
| Stage2DecoderRaises chart_type optimized_prompt response cls msg :
    stage1_suggestion chart_type optimized_prompt ->
    stage2_response optimized_prompt response ->
    loads W (Fence.clean_output response) = Raises cls msg ->
    cls <> CJSONDecodeError -> other_cause
| ChartFieldsFail chart_type optimized_prompt chart_data e :
    stage1_suggestion chart_type optimized_prompt ->
    stage2_object optimized_prompt chart_data ->
    chart_fields chart_data = inl e -> other_cause
| UnsupportedChart chart_type optimized_prompt :
    stage1_suggestion chart_type optimized_prompt ->
    chart_kind chart_type = None -> other_cause
| DrawRaises chart_type optimized_prompt chart_data kind labels values title cls msg :
    stage1_suggestion chart_type optimized_prompt ->
    stage2_object optimized_prompt chart_data ->
    chart_kind chart_type = Some kind ->
    chart_fields chart_data = inr (labels, values, title) ->
    draw W kind labels values title = Raises cls msg -> other_cause
| SavefigRaises chart_type optimized_prompt chart_data kind labels values title cls msg :
    stage1_suggestion chart_type optimized_prompt ->
    stage2_object optimized_prompt chart_data ->
    chart_kind chart_type = Some kind ->
    chart_fields chart_data = inr (labels, values, title) ->
    savefig W (Some (kind, labels, values, title)) = Raises cls msg -> other_cause.

End Milestones.

End Props.
Import Props.

(** ** Worlds to run the scripts in *)

Module Examples.

(** The API key is [key], the module is installed, the model gives the
    answers of [responses] one call after the other, JSON is decoded by
    the reference decoder, and plotting succeeds. *)
Definition world (key : option pystr) (responses : list (outcome pystr)) : World :=
  {| GEMINI_API_KEY := key;
     genai_installed := true;
     gemini := fun n _ => nth n responses (Raises COther (lit "429 quota exceeded"));
     loads := RefJson.loads;
     read_csv := fun _ => Raises CValueError (lit "No columns to parse from file");
     py_str := fun _ => lit "<value>";
     draw := fun _ _ _ _ => Returns tt;
     savefig := fun _ => Returns (lit "iVBORw0KGgo=") |}.

Definition api_key : option pystr := Some (lit "AIza-key").

Definition sales_text : pystr := lit "Sales were 10 in Q1".

(** [python gemini_qa.py TEXT QUESTION] of the website. *)
Definition web_argv (text question : pystr) : list pystr :=
  [lit "gemini_qa.py"; text; question].

(** [{"title": "Sales", "data_points": [{"label": "Q1", "value": 10}]}] *)
Definition chart_text : pystr :=
  List.concat
    [lit "{"; dq; lit "title"; dq; lit ": "; dq; lit "Sales"; dq; lit ", ";
     dq; lit "data_points"; dq; lit ": [{"; dq; lit "label"; dq; lit ": ";
     dq; lit "Q1"; dq; lit ", "; dq; lit "value"; dq; lit ": 10}]}"].

Definition chart_object : json :=
  JObject [(lit "title", JString (lit "Sales"));
           (lit "data_points",
            JArray [JObject [(lit "label", JString (lit "Q1"));
                             (lit "value", JInt 10)]])].

(** The same text inside a fence. *)
Definition fenced_chart_text : pystr :=
  Fence.open_marker ++ nl ++ chart_text ++ nl ++ Fence.close_marker.

(** [{"chart_type_suggestion": "<kind>", "optimized_prompt": "Sum sales by quarter"}] *)
Definition meta_text (kind : string) : pystr :=
  List.concat
    [lit "{"; dq; lit "chart_type_suggestion"; dq; lit ": "; dq; lit kind; dq;
     lit ", "; dq; lit "optimized_prompt"; dq; lit ": "; dq;
     lit "Sum sales by quarter"; dq; lit "}"].

End Examples.

(** ** More vocabulary: counts, names and messages *)

Module Observations.

(** The word that selects a branch of the renderer (lines 100 to 109). *)
Definition chart_name (kind : chart) : pystr :=
  match kind with
  | Bar => lit "bar"
  | Pie => lit "pie"
  | Line => lit "line"
  end.

(** How often [plt.figure] was called. *)
Fixpoint count_figures (t : trace) : nat :=
  match t with
  | [] => 0%nat
  | EvFigure :: r => S (count_figures r)
  | _ :: r => count_figures r
  end.

(** How often [plt.close] was called. *)
Fixpoint count_closes (t : trace) : nat :=
  match t with
  | [] => 0%nat
  | EvClose :: r => S (count_closes r)
  | _ :: r => count_closes r
  end.


Definition arguments_message : pystr :=
  lit "Text and question not provided for Q&A.".

Definition meta_parse_message : pystr :=
  lit "Failed to parse meta-prompt JSON from Gemini: ".

Definition chart_parse_message : pystr :=
  lit "Failed to parse chart data JSON from Gemini: ".

(** What the interpreter reports when line 2 of the website script
    does not find the module. *)
Definition import_error : exn :=
  ModuleNotFoundError (lit "No module named 'google'").

(** The result dictionary of [generate_visualization] (line 126). *)
Definition chart_result (image_base64 : pystr) (title : json) : json :=
  JObject [(lit "image", JString image_base64); (lit "title", title)].

End Observations.
Import Observations.

(** * Properties *)

Unset Implicit Arguments.

(** ** Strings *)

Module PyStrFacts.

Lemma eqb_eq (a b : pystr) : PyStr.eqb a b = true <-> a = b.
Proof.
  unfold PyStr.eqb. destruct (list_eq_dec N.eq_dec a b); split; congruence.
Qed.

Lemma eqb_neq (a b : pystr) : PyStr.eqb a b = false <-> a <> b.
Proof.
  unfold PyStr.eqb. destruct (list_eq_dec N.eq_dec a b); split; congruence.
Qed.

Lemma lstrip_all_space (pre s : pystr) :
  all_space pre -> lstrip (pre ++ s) = lstrip s.
Proof.
  induction 1 as [|c pre Hc _ IH]; simpl; [reflexivity|].
  now rewrite Hc.
Qed.

Lemma lstrip_head (s : pystr) : head_not_space s -> lstrip s = s.
Proof.
  destruct s as [|c r]; simpl; [reflexivity|].
  now intros ->.
Qed.

Lemma lstrip_spaces (s : pystr) : all_space s -> lstrip s = [].
Proof.
  intros H. rewrite <- (app_nil_r s). now rewrite lstrip_all_space.
Qed.

Lemma all_space_rev (s : pystr) : all_space s -> all_space (rev s).
Proof. apply Forall_rev. Qed.

Lemma rstrip_all_space (s post : pystr) :
  all_space post -> rstrip (s ++ post) = rstrip s.
Proof.
  intros H. unfold rstrip. rewrite rev_app_distr.
  now rewrite lstrip_all_space by now apply all_space_rev.
Qed.

Lemma rstrip_last (s : pystr) : last_not_space s -> rstrip s = s.
Proof.
  intros H. unfold rstrip. rewrite lstrip_head by exact H. apply rev_involutive.
Qed.

(** What [lstrip] removes is whitespace, and it stops at a character
    that is not. *)
Lemma lstrip_spec (s : pystr) :
  exists pre, s = pre ++ lstrip s /\ all_space pre /\ head_not_space (lstrip s).
Proof.
  induction s as [|c r (pre & E & Hpre & Hhd)]; simpl.
  - exists []. repeat split. constructor.
  - destruct (is_space c) eqn:Hc.
    + exists (c :: pre). simpl. rewrite <- E. repeat split; auto.
      constructor; auto.
    + exists []. repeat split; [constructor | exact Hc].
Qed.

Lemma lstrip_keeps_last (a : pystr) (c : codepoint) :
  is_space c = false -> exists a', lstrip (a ++ [c]) = a' ++ [c].
Proof.
  intros Hc. induction a as [|x a [a' IH]]; simpl.
  - rewrite Hc. now exists [].
  - destruct (is_space x).
    + now exists a'.
    + now exists (x :: a ).
Qed.

Lemma rstrip_spec (s : pystr) :
  exists post, s = rstrip s ++ post /\ all_space post /\ last_not_space (rstrip s).
Proof.
  unfold rstrip, last_not_space.
  destruct (lstrip_spec (rev s)) as (pre & E & Hpre & Hhd).
  exists (rev pre). rewrite rev_involutive. repeat split.
  - rewrite <- rev_app_distr, <- E. symmetry; apply rev_involutive.
  - now apply all_space_rev.
  - exact Hhd.
Qed.

Lemma rstrip_keeps_head (s : pystr) :
  head_not_space s -> head_not_space (rstrip s).
Proof.
  destruct s as [|c r]; [intros _; exact I|].
  simpl. intros Hc. unfold rstrip. simpl rev.
  destruct (lstrip_keeps_last (rev r) c Hc) as [a' ->].
  rewrite rev_app_distr. simpl. exact Hc.
Qed.

(** [strip] removes whitespace at both ends and nothing else. *)
Lemma strip_spec (s : pystr) :
  exists pre post,
    s = pre ++ strip s ++ post /\ all_space pre /\ all_space post
    /\ head_not_space (strip s) /\ last_not_space (strip s).
Proof.
  unfold strip.
  destruct (lstrip_spec s) as (pre & E & Hpre & Hhd).
  destruct (rstrip_spec (lstrip s)) as (post & E' & Hpost & Hlast).
  exists pre, post. repeat split; auto.
  - now rewrite <- E'.
  - now apply rstrip_keeps_head.
Qed.

Lemma strip_wrapped (pre t post : pystr) :
  all_space pre -> all_space post -> head_not_space t -> last_not_space t ->
  strip (pre ++ t ++ post) = t.
Proof.
  intros Hpre Hpost Hhd Hlast. unfold strip.
  rewrite lstrip_all_space by exact Hpre.
  destruct t as [|c r].
  - simpl. now rewrite lstrip_spaces.
  - rewrite lstrip_head by exact Hhd.
    rewrite rstrip_all_space by exact Hpost. now apply rstrip_last.
Qed.

Lemma strip_fixed (t : pystr) :
  head_not_space t -> last_not_space t -> strip t = t.
Proof.
  intros. rewrite <- (strip_wrapped [] t []) at 2;
    try assumption; try constructor.
  simpl. now rewrite app_nil_r.
Qed.

End PyStrFacts.

(** ** The fence *)

Module FenceFacts.

Import PyStrFacts Fence.

Lemma drop_prefix_app (p s : pystr) : drop_prefix p (p ++ s) = Some s.
Proof.
  induction p as [|a p IH]; simpl; [reflexivity|].
  now rewrite N.eqb_refl.
Qed.

Lemma drop_prefix_Some (p s r : pystr) : drop_prefix p s = Some r -> s = p ++ r.
Proof.
  revert s. induction p as [|a p IH]; intros s; simpl.
  - now intros [= ->].
  - destruct s as [|b s]; [discriminate|].
    destruct (a =? b) eqn:E; [|discriminate].
    apply N.eqb_eq in E. subst b. intros H. now rewrite (IH _ H).
Qed.

Lemma in_lstrip (c : codepoint) (s : pystr) :
  In c s -> is_space c = false -> In c (lstrip s).
Proof.
  intros Hin Hc. destruct (lstrip_spec s) as (pre & E & Hpre & _).
  rewrite E in Hin. apply in_app_or in Hin. destruct Hin as [Hin|Hin]; [|exact Hin].
  unfold all_space in Hpre. rewrite Forall_forall in Hpre.
  specialize (Hpre _ Hin). congruence.
Qed.

(** The closing alternative matches only text made of whitespace,
    backticks and a final newline. *)
Lemma match_close_None (c : codepoint) (s : pystr) :
  In c s -> is_space c = false -> c <> backtick -> match_close s = None.
Proof.
  intros Hin Hc Hbt. unfold match_close.
  destruct (drop_prefix close_marker (lstrip s)) as [r|] eqn:E; [|reflexivity].
  destruct (at_dollar r) eqn:D; [|reflexivity]. exfalso.
  apply drop_prefix_Some in E.
  pose proof (in_lstrip c s Hin Hc) as Hin'. rewrite E in Hin'.
  assert (Hr : forall x, In x r -> is_space x = true).
  { destruct r as [|x [|y r]]; simpl in D; try discriminate.
    - intros ? [].
    - apply N.eqb_eq in D. subst x. intros ? [<-|[]]. reflexivity. }
  apply in_app_or in Hin'. destruct Hin' as [Hin'|Hin'].
  - simpl in Hin'. intuition congruence.
  - specialize (Hr _ Hin'). congruence.
Qed.

Lemma scan_unfold (s : pystr) :
  scan s = match match_close s with
           | Some r => r
           | None => match s with [] => [] | c :: s' => c :: scan s' end
           end.
Proof. destruct s; reflexivity. Qed.

Lemma scan_keep (body : pystr) (c : codepoint) (tail : pystr) :
  is_space c = false -> c <> backtick ->
  scan (body ++ c :: tail) = body ++ c :: scan tail.
Proof.
  intros Hc Hbt. induction body as [|b body IH].
  - simpl app. rewrite scan_unfold.
    rewrite (match_close_None c (c :: tail)); auto. now left.
  - simpl app. rewrite scan_unfold.
    rewrite (match_close_None c (b :: body ++ c :: tail)); auto.
    + now rewrite IH.
    + right. apply in_or_app. right. now left.
Qed.

Lemma scan_close (ws : pystr) : all_space ws -> scan (ws ++ close_marker) = [].
Proof.
  intros H.
  assert (E : match_close (ws ++ close_marker) = Some []).
  { unfold match_close. rewrite lstrip_all_space by exact H. reflexivity. }
  now rewrite scan_unfold, E.
Qed.

(** The substitution on small responses. *)
Example fence_labelled :
  clean_output (lit "```json" ++ nl ++ lit "{}" ++ nl ++ lit "```") = lit "{}".
Proof. vm_compute. reflexivity. Qed.

Example fence_absent : clean_output (lit " {} " ++ nl) = lit "{}".
Proof. vm_compute. reflexivity. Qed.

(** Only the closing line of a fence without the word [json] is removed. *)
Example fence_unlabelled :
  clean_output (lit "```" ++ nl ++ lit "{}" ++ nl ++ lit "```")
  = lit "```" ++ nl ++ lit "{}".
Proof. vm_compute. reflexivity. Qed.

(** [$] also matches before a final newline, which stays. *)
Example fence_before_newline :
  re_sub_fence (lit "{} ```" ++ nl) = lit "{}" ++ nl.
Proof. vm_compute. reflexivity. Qed.

Section ObjectText.

Variable inner : pystr.

Lemma text_head : head_not_space (braced inner).
Proof. reflexivity. Qed.

Lemma text_last : last_not_space (braced inner).
Proof.
  unfold last_not_space, braced. rewrite !rev_app_distr. reflexivity.
Qed.

Lemma re_sub_fence_bare : re_sub_fence (braced inner) = (braced inner).
Proof.
  unfold re_sub_fence. change (drop_prefix open_marker (braced inner)) with (@None pystr).
  unfold braced. rewrite app_assoc.
  rewrite (scan_keep ([WebQA.lbrace] ++ inner) WebQA.rbrace []);
    [reflexivity | reflexivity | discriminate].
Qed.

Lemma re_sub_fence_fenced (ws1 ws2 : pystr) :
  all_space ws1 -> all_space ws2 ->
  re_sub_fence (open_marker ++ ws1 ++ (braced inner) ++ ws2 ++ close_marker) = (braced inner).
Proof.
  intros H1 H2. unfold re_sub_fence. rewrite drop_prefix_app.
  rewrite lstrip_all_space by exact H1.
  rewrite lstrip_head by reflexivity.
  unfold braced. rewrite <- !app_assoc. rewrite !app_assoc.
  rewrite <- (app_assoc _ ws2 close_marker).
  rewrite <- (app_assoc _ [WebQA.rbrace]). simpl ([WebQA.rbrace] ++ _).
  rewrite (scan_keep ([WebQA.lbrace] ++ inner) WebQA.rbrace (ws2 ++ close_marker));
    [| reflexivity | discriminate].
  rewrite scan_close by exact H2. now rewrite <- app_assoc.
Qed.

(** Whatever surrounds it, the cleaned response is the text itself. *)
Lemma clean_output_response (w : pystr) : response_of (braced inner) w -> clean_output w = (braced inner).
Proof.
  intros [pre post Hpre Hpost | pre ws1 ws2 post Hpre H1 H2 Hpost]; unfold clean_output.
  - rewrite (strip_wrapped pre (braced inner) post), (strip_fixed (braced inner));
      auto using text_head, text_last, re_sub_fence_bare.
  - set (f := open_marker ++ ws1 ++ (braced inner) ++ ws2 ++ close_marker).
    assert (Hh : head_not_space f) by reflexivity.
    assert (Hl : last_not_space f).
    { unfold last_not_space, f. rewrite !rev_app_distr. reflexivity. }
    replace (pre ++ open_marker ++ ws1 ++ (braced inner) ++ ws2 ++ close_marker ++ post)
      with (pre ++ f ++ post) by (unfold f; now rewrite <- !app_assoc).
    rewrite (strip_wrapped pre f post), (strip_fixed f); auto.
    now apply re_sub_fence_fenced.
Qed.

End ObjectText.

End FenceFacts.

(** ** Recovering the object (C1) *)

(** C1.  For the text [t] of a JSON object [obj] (the decoder reads
    [obj] from [t], which runs from an opening to a closing brace), and
    for every response that presents [t] bare or inside a
    [```json] ... [```] fence with any whitespace around, stripping the
    response, removing the fence and decoding (lines 54 to 57 and 82 to
    85) gives back exactly [obj], and nothing else happens. *)
Theorem fence_strip_then_parse_recovers_object
    (W : World) (t w : pystr) (obj : json) :
  object_text W t obj -> response_of t w ->
  forall st, json_loads W (Fence.clean_output w) st = (st, inr obj).
Proof.
  intros (Hloads & _ & inner & ->) Hw st.
  rewrite (FenceFacts.clean_output_response inner w Hw).
  unfold json_loads. now rewrite Hloads.
Qed.

Lemma fence_strip_then_parse_recovers_object_witness :
  json_loads (Examples.world Examples.api_key []) 
    (Fence.clean_output (lit "  " ++ Examples.fenced_chart_text ++ nl)) initial
  = (initial, inr Examples.chart_object).
Proof.
  apply (fence_strip_then_parse_recovers_object
           (Examples.world Examples.api_key []) Examples.chart_text).
  - split; [vm_compute; reflexivity|]. split; [reflexivity|].
    exists (removelast (tl Examples.chart_text)). vm_compute. reflexivity.
  - apply (@Fenced Examples.chart_text (lit "  ") nl nl nl);
      repeat constructor.
Defined.

(** ** Running the scripts *)

Module RunFacts.

#[global] Opaque lit.

(** The buggy report: whatever [obj], nothing is printed and the
    [TypeError] of [json.dumps] goes on. *)
Lemma report_file_kw (obj : json) (st : state) :
  (text <- json_dumps obj ["file"%string] ;; print text Stdout ;;; sys_exit 1) st
  = (st, @inl exn unit dumps_file_error).
Proof. reflexivity. Qed.

Lemma subscript_ordinary (v : json) (key : pystr) (e : exn) :
  subscript v key = inl e -> ordinary e.
Proof.
  unfold subscript. destruct v; try (intros [= <-]; now split).
  destruct (dict_get members key); [discriminate|].
  intros [= <-]; now split.
Qed.

Lemma elements_ordinary (v : json) (e : exn) : elements v = inl e -> ordinary e.
Proof.
  destruct v; simpl; try discriminate; intros [= <-]; now split.
Qed.

Lemma map_result_ordinary {A B : Type} (f : A -> result B) (xs : list A) (e : exn) :
  (forall x e', f x = inl e' -> ordinary e') ->
  map_result f xs = inl e -> ordinary e.
Proof.
  intros Hf. induction xs as [|x xs IH]; simpl; [discriminate|].
  destruct (f x) as [e'|y] eqn:E.
  - intros [= <-]. eauto.
  - destruct (map_result f xs); [|discriminate]. intros [= <-]. now apply IH.
Qed.

Lemma is_Exception_error (cls : error_class) (msg : pystr) :
  is_Exception (error cls msg) = true.
Proof. now destruct cls. Qed.

Import Viz.

Lemma configure_run (W : World) (st : state) :
  configure W st =
  (st, if genai_installed W && negb (py_not (GEMINI_API_KEY W))
       then inr tt else inl dumps_file_error).
Proof.
  unfold configure, try_except, bind, import_genai, os_environ_get_key.
  destruct (genai_installed W); simpl; [|reflexivity].
  destruct (py_not (GEMINI_API_KEY W)); reflexivity.
Qed.

Lemma text_to_process_run (W : World) (input_data : pystr) (is_csv : bool) (st : state) :
  text_to_process W input_data is_csv st =
  (st, if is_csv then
         match read_csv W input_data with
         | Returns (head, columns) => inr (csv_description head columns)
         | Raises _ _ => inl dumps_file_error
         end
       else inr input_data).
Proof.
  unfold text_to_process. destruct is_csv; [|reflexivity].
  unfold try_except, raise.
  destruct (read_csv W input_data) as [[h c]|cls msg]; [reflexivity|].
  now rewrite is_Exception_error.
Qed.

Lemma stage1_run (W : World) (text : pystr) (st : state) :
  stage1 W text st =
  let ev := events st ++ [EvGenerate (meta_prompt text)] in
  let what := lit "Failed to parse meta-prompt JSON from Gemini: " in
  match gemini W (List.length (prompts (events st))) (meta_prompt text) with
  | Raises cls msg =>
      let vs := ("raw_meta_output"%string, []) :: vars st in
      if is_JSONDecodeError (error cls msg)
      then (mkState (ev ++ [parse_report what (exn_str (error cls msg)) []]) vs,
            inl (SystemExit 1))
      else (mkState ev vs, inl dumps_file_error)
  | Returns response =>
      let vs := ("raw_meta_output"%string, strip response)
                :: ("raw_meta_output"%string, []) :: vars st in
      match loads W (Fence.clean_output response) with
      | Raises cls msg =>
          if is_JSONDecodeError (error cls msg)
          then (mkState (ev ++ [parse_report what (exn_str (error cls msg))
                                             (strip response)]) vs,
                inl (SystemExit 1))
          else (mkState ev vs, inl dumps_file_error)
      | Returns meta =>
          match subscript meta (lit "chart_type_suggestion") with
          | inl _ => (mkState ev vs, inl dumps_file_error)
          | inr chart_type =>
              match subscript meta (lit "optimized_prompt") with
              | inl _ => (mkState ev vs, inl dumps_file_error)
              | inr optimized_prompt => (mkState ev vs, inr (chart_type, optimized_prompt))
              end
          end
      end
  end.
Proof.
  unfold stage1, try_except, bind, assign, generate_content, read, json_loads,
    getitem, lift, Fence.clean_output, ret, raise.
  cbv beta iota zeta. simpl events. simpl vars.
  destruct (gemini W _ _) as [response|cls msg]; [|destruct cls; reflexivity].
  simpl lookup_var. cbv beta iota zeta.
  destruct (loads W _) as [meta|cls msg]; [|destruct cls; reflexivity].
  cbv beta iota zeta.
  destruct (subscript meta (lit "chart_type_suggestion")) as [e|ct] eqn:E1.
  { destruct (subscript_ordinary _ _ _ E1) as [H1 H2]. now rewrite H1, H2. }
  destruct (subscript meta (lit "optimized_prompt")) as [e|op] eqn:E2.
  { destruct (subscript_ordinary _ _ _ E2) as [H1 H2]. now rewrite H1, H2. }
  reflexivity.
Qed.

Lemma stage2_run (W : World) (optimized_prompt : json) (input_data : pystr) (st : state) :
  stage2 W optimized_prompt input_data st =
  let prompt := data_prompt W optimized_prompt input_data in
  let ev := events st ++ [EvGenerate prompt] in
  let what := lit "Failed to parse chart data JSON from Gemini: " in
  match gemini W (List.length (prompts (events st))) prompt with
  | Raises cls msg =>
      let vs := ("raw_chart_data_output"%string, []) :: vars st in
      if is_JSONDecodeError (error cls msg)
      then (mkState (ev ++ [parse_report what (exn_str (error cls msg)) []]) vs,
            inl (SystemExit 1))
      else (mkState ev vs, inl dumps_file_error)
  | Returns response =>
      let vs := ("raw_chart_data_output"%string, strip response)
                :: ("raw_chart_data_output"%string, []) :: vars st in
      match loads W (Fence.clean_output response) with
      | Raises cls msg =>
          if is_JSONDecodeError (error cls msg)
          then (mkState (ev ++ [parse_report what (exn_str (error cls msg))
                                             (strip response)]) vs,
                inl (SystemExit 1))
          else (mkState ev vs, inl dumps_file_error)
      | Returns chart_data => (mkState ev vs, inr chart_data)
      end
  end.
Proof.
  unfold stage2, try_except, bind, assign, generate_content, read, json_loads,
    lift, Fence.clean_output, ret, raise.
  cbv beta iota zeta. simpl events. simpl vars.
  destruct (gemini W _ _) as [response|cls msg]; [|destruct cls; reflexivity].
  simpl lookup_var. cbv beta iota zeta.
  destruct (loads W _) as [chart_data|cls msg]; [|destruct cls; reflexivity].
  reflexivity.
Qed.

Lemma drawn_last (a : trace) (k : chart) (l v : list json) (ti : json) cur :
  drawn (a ++ [EvFigure; EvPlot k l v ti]) cur = Some (k, l, v, ti).
Proof.
  revert cur. induction a as [|ev a IH]; intros cur; simpl; [reflexivity|].
  destruct ev; apply IH.
Qed.

Lemma chart_fields_ordinary (chart_data : json) (e : exn) :
  chart_fields chart_data = inl e -> ordinary e.
Proof.
  unfold chart_fields.
  destruct (subscript chart_data (lit "data_points")) as [e1|dps] eqn:E1.
  { intros [= <-]. eapply subscript_ordinary; eauto. }
  destruct (elements dps) as [e2|items] eqn:E2.
  { intros [= <-]. eapply elements_ordinary; eauto. }
  destruct (map_result (fun dp => subscript dp (lit "label")) items)
    as [e3|labels] eqn:E3.
  { intros [= <-]. eapply map_result_ordinary; [|exact E3].
    intros x e'. apply subscript_ordinary. }
  destruct (map_result (fun dp => subscript dp (lit "value")) items)
    as [e4|values] eqn:E4.
  { intros [= <-]. eapply map_result_ordinary; [|exact E4].
    intros x e'. apply subscript_ordinary. }
  destruct (subscript chart_data (lit "title")) as [e5|title] eqn:E5.
  { intros [= <-]. eapply subscript_ordinary; eauto. }
  discriminate.
Qed.

Lemma stage3_run (W : World) (chart_type chart_data : json) (st : state) :
  stage3 W chart_type chart_data st =
  let ev := events st ++ [EvFigure] in
  match chart_fields chart_data with
  | inl _ => (mkState (ev ++ [EvClose]) (vars st), inl dumps_file_error)
  | inr (labels, values, title) =>
      match chart_kind chart_type with
      | None => (mkState (ev ++ [EvClose]) (vars st), inl dumps_file_error)
      | Some kind =>
          let plotted := ev ++ [EvPlot kind labels values title] in
          match draw W kind labels values title with
          | Raises _ _ => (mkState (plotted ++ [EvClose]) (vars st), inl dumps_file_error)
          | Returns _ =>
              match savefig W (Some (kind, labels, values, title)) with
              | Raises _ _ =>
                  (mkState ((plotted ++ [EvSavefig]) ++ [EvClose]) (vars st),
                   inl dumps_file_error)
              | Returns image_base64 =>
                  (mkState ((plotted ++ [EvSavefig]) ++ [EvClose]) (vars st),
                   inr (JObject [(lit "image", JString image_base64);
                                 (lit "title", title)]))
              end
          end
      end
  end.
Proof.
  pose proof (chart_fields_ordinary chart_data) as Hord.
  unfold chart_fields in *.
  unfold stage3, try_except, bind, emit, getitem, iterate, comprehension, lift,
    ret, raise.
  cbv beta iota zeta. simpl events. simpl vars.
  destruct (subscript chart_data (lit "data_points")) as [e|dps].
  { destruct (Hord e eq_refl) as [H1 H2]. now rewrite H1. }
  cbv beta iota zeta.
  destruct (elements dps) as [e|items].
  { destruct (Hord e eq_refl) as [H1 H2]. now rewrite H1. }
  cbv beta iota zeta.
  destruct (map_result (fun dp => subscript dp (lit "label")) items) as [e|labels].
  { destruct (Hord e eq_refl) as [H1 H2]. now rewrite H1. }
  cbv beta iota zeta.
  destruct (map_result (fun dp => subscript dp (lit "value")) items) as [e|values].
  { destruct (Hord e eq_refl) as [H1 H2]. now rewrite H1. }
  cbv beta iota zeta.
  destruct (subscript chart_data (lit "title")) as [e|title].
  { destruct (Hord e eq_refl) as [H1 H2]. now rewrite H1. }
  cbv beta iota zeta. clear Hord.
  unfold chart_kind.
  assert (Hplot : forall kind,
    (let (st', r) := plot W kind labels values title
                       (mkState (events st ++ [EvFigure]) (vars st)) in
     match r with
     | inl e => (st', inl e)
     | inr _ =>
         let (st'0, r0) := save_base64 W st' in
         match r0 with
         | inl e => (st'0, inl e)
         | inr a =>
             (mkState (events st'0 ++ [EvClose]) (vars st'0),
              @inr exn json (JObject [(lit "image", JString a); (lit "title", title)]))
         end
     end) =
    let plotted := (events st ++ [EvFigure]) ++ [EvPlot kind labels values title] in
    match draw W kind labels values title with
    | Raises cls msg => (mkState plotted (vars st), inl (error cls msg))
    | Returns _ =>
        match savefig W (Some (kind, labels, values, title)) with
        | Raises cls msg =>
            (mkState (plotted ++ [EvSavefig]) (vars st), inl (error cls msg))
        | Returns b =>
            (mkState ((plotted ++ [EvSavefig]) ++ [EvClose]) (vars st),
             inr (JObject [(lit "image", JString b); (lit "title", title)]))
        end
    end).
  { intros kind. unfold plot, save_base64, bind, emit, ret, raise.
    cbv beta iota zeta. simpl events. simpl vars.
    destruct (draw W kind labels values title); [|reflexivity].
    cbv beta iota zeta. simpl events. simpl vars.
    rewrite <- app_assoc. simpl app. rewrite drawn_last.
    destruct (savefig W _); reflexivity. }
  destruct (eq_str chart_type (lit "bar")).
  { rewrite Hplot. cbv zeta.
    destruct (draw W Bar labels values title);
      [|now rewrite is_Exception_error].
    destruct (savefig W _); [reflexivity | now rewrite is_Exception_error]. }
  destruct (eq_str chart_type (lit "pie")).
  { rewrite Hplot. cbv zeta.
    destruct (draw W Pie labels values title);
      [|now rewrite is_Exception_error].
    destruct (savefig W _); [reflexivity | now rewrite is_Exception_error]. }
  destruct (eq_str chart_type (lit "line")).
  { rewrite Hplot. cbv zeta.
    destruct (draw W Line labels values title);
      [|now rewrite is_Exception_error].
    destruct (savefig W _); [reflexivity | now rewrite is_Exception_error]. }
  reflexivity.
Qed.

End RunFacts.

(** ** Case analysis of a visualization run *)

Module VizCases.

Import RunFacts Viz.

#[global] Opaque meta_prompt data_prompt csv_description Fence.clean_output strip.

Ltac crunch :=
  unfold dumps_file_error;
  rewrite ?is_Exception_error;
  cbn [events vars initial app List.length prompts filter on_stdout on_stderr
       output exit_code stdout stderr andb negb fst snd error
       is_Exception is_ModuleNotFoundError is_JSONDecodeError exn_str].

(** Every path of [main], one goal each, with the answers of the
    world that select the path as hypotheses. *)
Ltac viz_paths W input csv :=
  unfold run, main, generate_visualization, bind;
  rewrite configure_run;
  destruct (genai_installed W) eqn:Hinstalled; crunch;
  try (match goal with
       | |- context [py_not (GEMINI_API_KEY W)] =>
           destruct (py_not (GEMINI_API_KEY W)) eqn:Hkey
       end; crunch);
  try (rewrite text_to_process_run;
       destruct csv;
       [ destruct (read_csv W input) as [[head columns]|csv_cls csv_msg] eqn:Hcsv | ];
       crunch);
  try (rewrite stage1_run; crunch; cbv zeta; crunch);
  try (match goal with
       | |- context [gemini W 0%nat ?p] =>
           destruct (gemini W 0%nat p) as [response1|cls1 msg1] eqn:Hcall1;
           [ | destruct cls1 ]
       end; crunch);
  try (match goal with
       | |- context [loads W ?s] =>
           destruct (loads W s) as [meta|jcls1 jmsg1] eqn:Hloads1;
           [ | destruct jcls1 ]
       end; crunch);
  try (match goal with
       | |- context [subscript ?m (lit "chart_type_suggestion")] =>
           destruct (subscript m (lit "chart_type_suggestion"))
             as [e1|chart_type] eqn:Hct
       end; crunch);
  try (match goal with
       | |- context [subscript ?m (lit "optimized_prompt")] =>
           destruct (subscript m (lit "optimized_prompt"))
             as [e2|optimized_prompt] eqn:Hop
       end; crunch);
  try (rewrite stage2_run; crunch; cbv zeta; crunch);
  try (match goal with
       | |- context [gemini W 1%nat ?p] =>
           destruct (gemini W 1%nat p) as [response2|cls2 msg2] eqn:Hcall2;
           [ | destruct cls2 ]
       end; crunch);
  try (match goal with
       | |- context [loads W ?s] =>
           destruct (loads W s) as [chart_data|jcls2 jmsg2] eqn:Hloads2;
           [ | destruct jcls2 ]
       end; crunch);
  try (rewrite stage3_run; crunch; cbv zeta; crunch);
  try (match goal with
       | |- context [chart_fields ?d] =>
           destruct (chart_fields d) as [e3|[[labels values] title]] eqn:Hfields
       end; crunch);
  try (match goal with
       | |- context [chart_kind ?c] =>
           destruct (chart_kind c) as [kind|] eqn:Hkind
       end; crunch);
  try (match goal with
       | |- context [draw W ?k ?l ?v ?t] =>
           destruct (draw W k l v t) as [[]|dcls dmsg] eqn:Hdraw
       end; crunch);
  try (match goal with
       | |- context [savefig W ?f] =>
           destruct (savefig W f) as [image|scls smsg] eqn:Hsave
       end; crunch);
  unfold json_dumps, print, emit, ret, parse_report; crunch.

End VizCases.

(** ** Case analysis of a question answering run *)

Module QACases.

Import RunFacts VizCases.

Lemma format_prompt_value (text question : pystr) :
  WebQA.str_format [(lit "text", text); (lit "question", question)]
    WebQA.qa_prompt None = inr (interpolated_prompt text question).
Proof. vm_compute. reflexivity. Qed.

#[global] Opaque QA.qa_prompt interpolated_prompt.

Ltac qa_paths W :=
  unfold run, QA.main, QA.answer_question, try_except, bind, import_genai,
    os_environ_get_key, generate_content, json_dumps, print, emit, sys_exit,
    ret, raise;
  destruct (genai_installed W) eqn:Hinstalled; crunch;
  try (match goal with
       | |- context [py_not (GEMINI_API_KEY W)] =>
           destruct (py_not (GEMINI_API_KEY W)) eqn:Hkey
       end; crunch);
  try (match goal with
       | |- context [gemini W 0%nat ?p] =>
           destruct (gemini W 0%nat p) as [response|cls msg] eqn:Hcall
       end; crunch).

Lemma args_given (script text question : pystr) (rest : list pystr) :
  (List.length (script :: text :: question :: rest) <? 3)%nat = false.
Proof. reflexivity. Qed.

Ltac web_paths W argv :=
  unfold run, WebQA.main, WebQA.answer_question, WebQA.format_prompt, try_except,
    bind, lift, import_genai, os_environ_get_key, generate_content, json_dumps,
    print, emit, sys_exit, ret, raise;
  destruct (genai_installed W) eqn:Hinstalled; crunch;
  try (match goal with
       | |- context [(List.length argv <? 3)%nat] =>
           destruct (List.length argv <? 3)%nat eqn:Hargs
       end; crunch);
  try (match goal with
       | |- context [py_not (GEMINI_API_KEY W)] =>
           destruct (py_not (GEMINI_API_KEY W)) eqn:Hkey
       end; crunch);
  try (rewrite format_prompt_value; crunch);
  try (match goal with
       | |- context [gemini W 0%nat ?p] =>
           destruct (gemini W 0%nat p) as [response|cls msg] eqn:Hcall
       end; crunch).

End QACases.

Import RunFacts VizCases QACases.

(** ** Standard output (C8) *)

(** C8.  In the three scripts a run either succeeds, with exit status 0
    and exactly one JSON object on standard output, or fails, with an
    exit status that is not 0 and nothing at all on standard output:
    no partial result comes before an error. *)
Theorem stdout_only_on_success (W : World) :
  (forall input csv, stdout_contract (run (Viz.main W input csv)))
  /\ (forall input question csv, stdout_contract (run (QA.main W input question csv)))
  /\ (forall argv, stdout_contract (run (WebQA.main W argv))).
Proof.
  unfold stdout_contract. repeat split; intros.
  - viz_paths W input csv;
      solve [ right; split; [discriminate | reflexivity]
            | left; split; [reflexivity | eexists; reflexivity] ].
  - qa_paths W;
      solve [ right; split; [discriminate | reflexivity]
            | left; split; [reflexivity | eexists; reflexivity] ].
  - web_paths W argv;
      solve [ right; split; [discriminate | reflexivity]
            | left; split; [reflexivity | eexists; reflexivity] ].
Qed.

(** ** The credential check (C4) *)

Lemma unset_is_missing (W : World) :
  GEMINI_API_KEY W = None -> py_not (GEMINI_API_KEY W) = true.
Proof. now intros ->. Qed.

(** C4.  When the variable [GEMINI_API_KEY] is unset, every run of the
    three scripts ends with exit status 1 and its trace holds no call
    of [generate_content]: the process is over before any prompt is
    sent. *)
Theorem missing_key_stops_before_any_model_call (W : World) :
  GEMINI_API_KEY W = None ->
  (forall input csv,
      let p := run (Viz.main W input csv) in
      prompts (output p) = [] /\ exit_code p = 1%Z)
  /\ (forall input question csv,
      let p := run (QA.main W input question csv) in
      prompts (output p) = [] /\ exit_code p = 1%Z)
  /\ (forall argv,
      let p := run (WebQA.main W argv) in
      prompts (output p) = [] /\ exit_code p = 1%Z).
Proof.
  intros Hunset. apply unset_is_missing in Hunset.
  repeat split.
  all: try (viz_paths W input csv; first [reflexivity | congruence]).
  all: try (qa_paths W; first [reflexivity | congruence]).
  all: try (web_paths W argv; first [reflexivity | congruence]).
Qed.

Lemma missing_key_stops_before_any_model_call_witness :
  let p := run (Viz.main (Examples.world None []) Examples.sales_text false) in
  prompts (output p) = [] /\ exit_code p = 1%Z.
Proof.
  apply (missing_key_stops_before_any_model_call (Examples.world None [])).
  reflexivity.
Defined.

(** ** The figure (C2) *)

Ltac not_in_trace H :=
  cbn [In] in H;
  repeat (destruct H as [H|H]; [discriminate H|]); contradiction H.

Ltac ends_with :=
  first [ refine (ex_intro _ [] (ex_intro _ _ eq_refl))
        | refine (ex_intro _ [_] (ex_intro _ _ eq_refl))
        | refine (ex_intro _ [_; _] (ex_intro _ _ eq_refl))
        | refine (ex_intro _ [_; _; _] (ex_intro _ _ eq_refl))
        | refine (ex_intro _ [_; _; _; _] (ex_intro _ _ eq_refl))
        | refine (ex_intro _ [_; _; _; _; _] (ex_intro _ _ eq_refl))
        | refine (ex_intro _ [_; _; _; _; _; _] (ex_intro _ _ eq_refl)) ].

(** C2.  In every run of the visualization script no figure is left
    open when the process ends.  On the success path the figure is
    closed right after the image is saved and encoded, before the result
    is printed; on every failure path that opened a figure (data that
    cannot be read, an unsupported chart type, an exception while
    plotting or saving) [plt.close()] is the last thing the script does
    before the interpreter reports the exception and exits. *)
Theorem figure_closed_on_every_path (W : World) (input : pystr) (csv : bool) :
  let p := run (Viz.main W input csv) in
  figure_left_open (output p) false = false
  /\ (exit_code p = 0%Z ->
      exists pre obj, output p = pre ++ [EvSavefig; EvClose; EvPrint Stdout obj])
  /\ (exit_code p <> 0%Z -> In EvFigure (output p) ->
      exists pre e, output p = pre ++ [EvClose; EvTraceback e]).
Proof.
  viz_paths W input csv.
  all: split; [reflexivity|].
  all: split; [ intros Hexit; first [discriminate Hexit | ends_with]
              | intros Hexit Hfig;
                first [ now elim Hexit | not_in_trace Hfig | ends_with ] ].
Qed.

Lemma figure_closed_on_every_path_witness :
  let p := run (Viz.main
                  (Examples.world Examples.api_key
                     [Returns (Examples.meta_text "scatter");
                      Returns Examples.fenced_chart_text])
                  Examples.sales_text false) in
  exists pre e, output p = pre ++ [EvClose; EvTraceback e].
Proof.
  apply (figure_closed_on_every_path
           (Examples.world Examples.api_key
              [Returns (Examples.meta_text "scatter");
               Returns Examples.fenced_chart_text])
           Examples.sales_text false).
  - vm_compute. discriminate.
  - vm_compute. right. right. left. reflexivity.
Defined.

(** ** The answer (C9) *)

(** C9.  A successful run of either question answering script made
    exactly one model call, and prints exactly one JSON object, whose
    ["answer"] is the response text without its leading and trailing
    whitespace: the response is [pre ++ answer ++ post] with [pre] and
    [post] all whitespace and [answer] neither starting nor ending with
    whitespace. *)
Theorem qa_answer_is_stripped_response (W : World) :
  (forall input question csv,
      let p := run (QA.main W input question csv) in
      exit_code p = 0%Z ->
      exists response,
        gemini W 0 (QA.qa_prompt (context_prefix csv) input question) = Returns response
        /\ prompts (output p) = [QA.qa_prompt (context_prefix csv) input question]
        /\ stdout p = [EvPrint Stdout (JObject [(lit "answer", JString (strip response))])]
        /\ exists pre post,
             response = pre ++ strip response ++ post
             /\ all_space pre /\ all_space post
             /\ head_not_space (strip response) /\ last_not_space (strip response))
  /\ (forall script text question rest,
      let p := run (WebQA.main W (script :: text :: question :: rest)) in
      exit_code p = 0%Z ->
      exists response,
        gemini W 0 (interpolated_prompt text question) = Returns response
        /\ prompts (output p) = [interpolated_prompt text question]
        /\ stdout p = [EvPrint Stdout (JObject [(lit "answer", JString (strip response))])]
        /\ exists pre post,
             response = pre ++ strip response ++ post
             /\ all_space pre /\ all_space post
             /\ head_not_space (strip response) /\ last_not_space (strip response)).
Proof.
  split; intros.
  - revert H. unfold p. clear p. unfold context_prefix.
    qa_paths W; intros Hexit; try discriminate Hexit.
    exists response. repeat split; try assumption.
    apply PyStrFacts.strip_spec.
  - revert H. unfold p. clear p.
    unfold WebQA.main. rewrite args_given. cbn [nth].
    web_paths W (script :: text :: question :: rest);
      intros Hexit; try discriminate Hexit.
    exists response. repeat split; try assumption.
    apply PyStrFacts.strip_spec.
Qed.

Lemma qa_answer_is_stripped_response_witness :
  let p := run (QA.main (Examples.world Examples.api_key
                           [Returns (nl ++ lit "  Ten. " ++ nl)])
                  Examples.sales_text (lit "How many?") false) in
  stdout p = [EvPrint Stdout (JObject [(lit "answer", JString (lit "Ten."))])].
Proof.
  destruct (qa_answer_is_stripped_response
              (Examples.world Examples.api_key [Returns (nl ++ lit "  Ten. " ++ nl)]))
    as [Hqa _].
  destruct (Hqa Examples.sales_text (lit "How many?") false eq_refl)
    as (response & Hcall & _ & Hout & _).
  injection Hcall as <-. exact Hout.
Defined.

(** ** Braces in the input of the website script (C10) *)

(** C10, as stated, fails: no text and question make the construction
    of the prompt raise.  [str.format] reads the braces of the template
    only; the values are copied into the result. *)
Lemma braces_do_not_break_prompt : ~ brace_breaks_prompt.
Proof.
  intros (text & question & _ & (e & He) & _).
  rewrite format_prompt_value in He. discriminate He.
Qed.

(** C10, amended.  For every text and question, with or without
    braces, [qa_prompt.format(text=text, question=question)] returns the
    template with the two placeholders replaced by the text and the
    question as they are; with the module installed and the key set,
    the run sends exactly that prompt to the model, and exits with
    status 0 when the model answers. *)
Theorem format_copies_text_and_question
    (W : World) (script text question : pystr) (rest : list pystr) :
  genai_installed W = true -> py_not (GEMINI_API_KEY W) = false ->
  let p := run (WebQA.main W (script :: text :: question :: rest)) in
  WebQA.str_format [(lit "text", text); (lit "question", question)]
    WebQA.qa_prompt None = inr (interpolated_prompt text question)
  /\ prompts (output p) = [interpolated_prompt text question]
  /\ (forall response,
        gemini W 0 (interpolated_prompt text question) = Returns response ->
        exit_code p = 0%Z).
Proof.
  intros Hi Hk p. split; [apply format_prompt_value|].
  unfold p; clear p. unfold WebQA.main. rewrite args_given. cbn [nth].
  web_paths W (script :: text :: question :: rest); try congruence.
  - split; [reflexivity|]. intros; reflexivity.
  - split; [reflexivity|]. intros; congruence.
Qed.

Lemma format_copies_text_and_question_witness :
  let p := run (WebQA.main (Examples.world Examples.api_key [Returns (lit "A brace.")])
                  (Examples.web_argv (lit "{") (lit "What is } ?"))) in
  prompts (output p) = [interpolated_prompt (lit "{") (lit "What is } ?")]
  /\ exit_code p = 0%Z.
Proof.
  destruct (format_copies_text_and_question
              (Examples.world Examples.api_key [Returns (lit "A brace.")])
              (lit "gemini_qa.py") (lit "{") (lit "What is } ?") []
              eq_refl eq_refl) as (_ & Hprompts & Hexit).
  split; [exact Hprompts|]. apply (Hexit (lit "A brace.")). reflexivity.
Defined.

(** ** An unsupported chart type (C5) *)

Lemma chart_kind_other (s : pystr) :
  s <> lit "bar" -> s <> lit "pie" -> s <> lit "line" ->
  chart_kind (JString s) = None.
Proof.
  intros Hb Hp Hl. unfold chart_kind, eq_str.
  apply PyStrFacts.eqb_neq in Hb, Hp, Hl. now rewrite Hb, Hp, Hl.
Qed.

Ltac open_milestones :=
  unfold stage1_suggestion, stage1_object, stage1_response, stage2_object,
    stage2_response, configured, stage1_text in *;
  repeat match goal with
         | H : exists _, _ |- _ => destruct H
         | H : _ /\ _ |- _ => destruct H
         | H : _ \/ _ |- _ => destruct H
         end;
  subst.

(** C5.  When the Stage-1 response decodes to an object whose
    [chart_type_suggestion] is a string other than [bar], [pie] and
    [line], [generate_visualization] does not return, and the run ends
    with exit status 1, with something on standard error (a JSON error
    object or the traceback of the exception), with nothing on standard
    output, and without any plotting or saving of an image. *)
Theorem unsupported_chart_type_is_fatal
    (W : World) (input : pystr) (csv : bool) (meta_output : json) (s : pystr) :
  stage1_object W input csv meta_output ->
  subscript meta_output (lit "chart_type_suggestion") = inr (JString s) ->
  s <> lit "bar" -> s <> lit "pie" -> s <> lit "line" ->
  let p := run (Viz.main W input csv) in
  exit_code p = 1%Z
  /\ stderr p <> []
  /\ stdout p = []
  /\ forallb (fun ev => negb (is_rendering ev)) (output p) = true
  /\ forall st result, Viz.generate_visualization W input csv initial <> (st, inr result).
Proof.
  intros Hobj Hsub Hb Hp Hl.
  pose proof (chart_kind_other s Hb Hp Hl) as Hnone.
  assert (Hrun :
    exit_code (run (Viz.main W input csv)) = 1%Z
    /\ stderr (run (Viz.main W input csv)) <> []
    /\ stdout (run (Viz.main W input csv)) = []
    /\ forallb (fun ev => negb (is_rendering ev))
         (output (run (Viz.main W input csv))) = true).
  { viz_paths W input csv.
    all: try solve [repeat split; first [reflexivity | discriminate]].
    all: exfalso; open_milestones; congruence. }
  cbv zeta. destruct Hrun as (Hexit & Herr & Hout & Hren).
  repeat split; try assumption.
  intros st result Hreturn. revert Hexit.
  unfold run, Viz.main, bind. rewrite Hreturn. discriminate.
Qed.

Lemma unsupported_chart_type_is_fatal_witness :
  let p := run (Viz.main
                  (Examples.world Examples.api_key
                     [Returns (Examples.meta_text "scatter");
                      Returns Examples.fenced_chart_text])
                  Examples.sales_text false) in
  exit_code p = 1%Z
  /\ stderr p <> []
  /\ stdout p = []
  /\ forallb (fun ev => negb (is_rendering ev)) (output p) = true
  /\ forall st result,
       Viz.generate_visualization
         (Examples.world Examples.api_key
            [Returns (Examples.meta_text "scatter");
             Returns Examples.fenced_chart_text])
         Examples.sales_text false initial <> (st, inr result).
Proof.
  apply (unsupported_chart_type_is_fatal
           (Examples.world Examples.api_key
              [Returns (Examples.meta_text "scatter");
               Returns Examples.fenced_chart_text])
           Examples.sales_text false
           (JObject [(lit "chart_type_suggestion", JString (lit "scatter"));
                     (lit "optimized_prompt", JString (lit "Sum sales by quarter"))])
           (lit "scatter")).
  - exists (Examples.meta_text "scatter"). split.
    + split; [split; reflexivity|].
      exists Examples.sales_text. split; reflexivity.
    + vm_compute. reflexivity.
  - vm_compute. reflexivity.
  - vm_compute. discriminate.
  - vm_compute. discriminate.
  - vm_compute. discriminate.
Defined.

(** ** The two stages of a successful run (C7) *)

Lemma data_prompt_value (W : World) (optimized_prompt : json) (input : pystr) :
  Viz.data_prompt W optimized_prompt input =
  Viz.data_extraction_system ++ nl ++ lit "PROMPT: "
  ++ format_value W optimized_prompt ++ nl ++ lit "TEXT/DATA: " ++ input.
Proof. reflexivity. Qed.

(** Milestones are reached by the answers at hand, from left to right. *)
Ltac reach :=
  repeat first [ eassumption | reflexivity | split | eexists ].

(** C7.  A run of the visualization script that exits with status 0
    made exactly two model calls, in this order: the Stage-1 call on
    the meta-prompt, and the Stage-2 call whose prompt is the extraction
    instructions, the [optimized_prompt] that Stage 1 returned and the
    original input data.  The chart was then drawn once, in the style
    that Stage 1's chart type selects, from the labels, the values and
    the title read from the object that Stage 2 returned, and the
    printed result holds the encoding of that figure and that title. *)
Theorem successful_run_is_two_stage_pipeline
    (W : World) (input : pystr) (csv : bool) :
  let p := run (Viz.main W input csv) in
  exit_code p = 0%Z ->
  exists text chart_type optimized_prompt chart_data kind labels values title image,
    stage1_text W input csv text
    /\ stage1_suggestion W input csv chart_type optimized_prompt
    /\ stage2_object W input optimized_prompt chart_data
    /\ chart_kind chart_type = Some kind
    /\ chart_fields chart_data = inr (labels, values, title)
    /\ savefig W (Some (kind, labels, values, title)) = Returns image
    /\ prompts (output p)
       = [Viz.meta_prompt text;
          Viz.data_extraction_system ++ nl ++ lit "PROMPT: "
          ++ format_value W optimized_prompt ++ nl ++ lit "TEXT/DATA: " ++ input]
    /\ output p
       = [EvGenerate (Viz.meta_prompt text);
          EvGenerate (Viz.data_prompt W optimized_prompt input);
          EvFigure;
          EvPlot kind labels values title;
          EvSavefig;
          EvClose;
          EvPrint Stdout (JObject [(lit "image", JString image); (lit "title", title)])].
Proof.
  intros p. unfold p. clear p.
  viz_paths W input csv; intros Hexit; try discriminate Hexit.
  - exists (Viz.csv_description head columns), chart_type, optimized_prompt,
      chart_data, kind, labels, values, title, image.
    rewrite <- data_prompt_value.
    unfold stage1_suggestion, stage1_object, stage1_response, stage2_object,
      stage2_response, configured, stage1_text.
    reach.
  - exists input, chart_type, optimized_prompt,
      chart_data, kind, labels, values, title, image.
    rewrite <- data_prompt_value.
    unfold stage1_suggestion, stage1_object, stage1_response, stage2_object,
      stage2_response, configured, stage1_text.
    reach.
Qed.

Lemma successful_run_is_two_stage_pipeline_witness :
  let p := run (Viz.main
                  (Examples.world Examples.api_key
                     [Returns (Examples.meta_text "bar");
                      Returns Examples.fenced_chart_text])
                  Examples.sales_text false) in
  exists text optimized_prompt labels values title image,
    prompts (output p)
    = [Viz.meta_prompt text;
       Viz.data_extraction_system ++ nl ++ lit "PROMPT: "
       ++ optimized_prompt ++ nl ++ lit "TEXT/DATA: " ++ Examples.sales_text]
    /\ In (EvPlot Bar labels values title) (output p)
    /\ In (EvPrint Stdout (JObject [(lit "image", JString image); (lit "title", title)]))
          (output p).
Proof.
  destruct (successful_run_is_two_stage_pipeline
              (Examples.world Examples.api_key
                 [Returns (Examples.meta_text "bar");
                  Returns Examples.fenced_chart_text])
              Examples.sales_text false eq_refl)
    as (text & ct & op & cd & kind & labels & values & title & image
        & Htext & Hsugg & Hobj & Hkind & Hfields & Hsave & Hprompts & Hout).
  destruct Hsugg as (meta & (r1 & (_ & text' & Htext' & Hcall1) & Hloads1) & Hct & Hop).
  simpl in Htext, Htext'. subst text text'.
  vm_compute in Hcall1. injection Hcall1 as <-.
  vm_compute in Hloads1. injection Hloads1 as <-.
  vm_compute in Hct. injection Hct as <-.
  vm_compute in Hop. injection Hop as <-.
  vm_compute in Hkind. injection Hkind as <-.
  exists Examples.sales_text, (lit "Sum sales by quarter"), labels, values, title, image.
  split; [exact Hprompts|]. rewrite Hout. split.
  - right. right. right. left. reflexivity.
  - do 6 right. left. reflexivity.
Defined.

(** ** When the orchestrator fails (C6) *)

Lemma absent_subscript (key : pystr) (v : json) :
  absent key v -> subscript v key = inl (KeyError key).
Proof. intros (members & -> & Hget). simpl. now rewrite Hget. Qed.

Lemma map_result_fails {A B : Type} (f : A -> result B) (xs : list A) (x : A) (e : exn) :
  In x xs -> f x = inl e -> exists e', map_result f xs = inl e'.
Proof.
  induction xs as [|y xs IH]; simpl; [contradiction|].
  intros [->|Hin] Hx.
  - rewrite Hx. eauto.
  - destruct (f y); [eauto|].
    destruct (IH Hin Hx) as [e' ->]. eauto.
Qed.

Lemma chart_fields_title (chart_data : json) (e : exn) :
  subscript chart_data (lit "title") = inl e ->
  exists e', chart_fields chart_data = inl e'.
Proof.
  intros H. unfold chart_fields. rewrite H.
  repeat match goal with
         | |- context [match ?x with inl _ => _ | inr _ => _ end] => destruct x
         end; eauto.
Qed.

Lemma chart_fields_data_points (chart_data : json) (e : exn) :
  subscript chart_data (lit "data_points") = inl e ->
  exists e', chart_fields chart_data = inl e'.
Proof. intros H. unfold chart_fields. rewrite H. eauto. Qed.

Lemma chart_fields_point (chart_data : json) (key : pystr) :
  key = lit "label" \/ key = lit "value" ->
  point_lacks key chart_data ->
  exists e', chart_fields chart_data = inl e'.
Proof.
  intros Hkey (dps & items & dp & Hdps & Hitems & Hin & Habs).
  apply absent_subscript in Habs.
  unfold chart_fields. rewrite Hdps, Hitems.
  destruct Hkey as [-> | ->].
  - destruct (map_result_fails (fun dp => subscript dp (lit "label")) items dp _ Hin Habs)
      as [e' ->]. eauto.
  - destruct (map_result (fun dp => subscript dp (lit "label")) items); [eauto|].
    destruct (map_result_fails (fun dp => subscript dp (lit "value")) items dp _ Hin Habs)
      as [e' ->]. eauto.
Qed.

(** The listed cases where a key is absent are field accesses that fail. *)
Lemma listed_cause_cases (W : World) (input : pystr) (csv : bool) :
  listed_cause W input csv ->
  py_not (GEMINI_API_KEY W) = true
  \/ (exists response msg,
        stage1_response W input csv response
        /\ loads W (Fence.clean_output response) = Raises CJSONDecodeError msg)
  \/ (exists chart_type optimized_prompt response msg,
        stage1_suggestion W input csv chart_type optimized_prompt
        /\ stage2_response W input optimized_prompt response
        /\ loads W (Fence.clean_output response) = Raises CJSONDecodeError msg)
  \/ other_cause W input csv.
Proof.
  intros [Hk | r msg Hr Hl | ct op r msg Hs Hr Hl | meta key Hm Hkey Habs
          | ct op cd key Hs Ho Hkey Habs | ct op cd key Hs Ho Hkey Hp].
  - now left.
  - right; left; eauto.
  - right; right; left. exists ct, op, r, msg. auto.
  - right; right; right.
    apply (@Stage1FieldFails W input csv meta key (KeyError key)); auto.
    now apply absent_subscript.
  - right; right; right.
    apply absent_subscript in Habs.
    destruct Hkey as [-> | ->].
    + destruct (chart_fields_title cd _ Habs) as [e' He'].
      exact (@ChartFieldsFail W input csv ct op cd e' Hs Ho He').
    + destruct (chart_fields_data_points cd _ Habs) as [e' He'].
      exact (@ChartFieldsFail W input csv ct op cd e' Hs Ho He').
  - right; right; right.
    destruct (chart_fields_point cd key Hkey Hp) as [e' He'].
    exact (@ChartFieldsFail W input csv ct op cd e' Hs Ho He').
Qed.

Ltac reach_cause :=
  repeat first [ eassumption | reflexivity | split | eexists
               | left; reflexivity | right; reflexivity | discriminate ].

Lemma other_cause_fails (W : World) (input : pystr) (csv : bool) :
  other_cause W input csv -> fails (run (Viz.main W input csv)).
Proof.
  intros Hcause. unfold fails.
  viz_paths W input csv.
  all: try solve [split; discriminate].
  all: exfalso; destruct Hcause; open_milestones; congruence.
Qed.

Lemma not_json_fails (W : World) (input : pystr) (csv : bool) :
  py_not (GEMINI_API_KEY W) = true
  \/ (exists response msg,
        stage1_response W input csv response
        /\ loads W (Fence.clean_output response) = Raises CJSONDecodeError msg)
  \/ (exists chart_type optimized_prompt response msg,
        stage1_suggestion W input csv chart_type optimized_prompt
        /\ stage2_response W input optimized_prompt response
        /\ loads W (Fence.clean_output response) = Raises CJSONDecodeError msg) ->
  fails (run (Viz.main W input csv)).
Proof.
  intros Hcause. unfold fails.
  viz_paths W input csv.
  all: try solve [split; discriminate].
  all: exfalso; destruct Hcause as [Hc|[Hc|Hc]]; open_milestones; congruence.
Qed.

Lemma fails_has_cause (W : World) (input : pystr) (csv : bool) :
  fails (run (Viz.main W input csv)) ->
  listed_cause W input csv \/ other_cause W input csv.
Proof.
  unfold fails.
  viz_paths W input csv; intros [Hexit Herr]; try now elim Hexit.
  all: unfold stage1_suggestion, stage1_object, stage1_response, stage2_object,
         stage2_response, configured, stage1_text.
  all: first [ left; econstructor; unfold stage1_suggestion, stage1_object,
                 stage1_response, stage2_object, stage2_response, configured,
                 stage1_text; solve [reach_cause]
             | right; econstructor; unfold stage1_suggestion, stage1_object,
                 stage1_response, stage2_object, stage2_response, configured,
                 stage1_text; solve [reach_cause] ].
Qed.

(** C6, amended.  The orchestrator reports an error and exits in each
    of the three listed cases (no credential; a response that is not
    JSON once the fence is removed; an expected key, among
    [chart_type_suggestion], [optimized_prompt], [title], [data_points],
    [label] and [value], absent from the decoded object), and these are
    not the only ones: it reports an error and exits exactly when one of
    the listed cases holds or the module is missing, the CSV cannot be
    read, a model call raises, the decoder raises another exception
    than a decoding error, a field access fails for another reason than
    an absent key, the chart type is unsupported, or plotting or saving
    raises. *)
Theorem orchestrator_fails_in_listed_cases_and_others
    (W : World) (input : pystr) (csv : bool) :
  let p := run (Viz.main W input csv) in
  (listed_cause W input csv -> fails p)
  /\ (fails p <-> listed_cause W input csv \/ other_cause W input csv).
Proof.
  assert (Hlisted : listed_cause W input csv -> fails (run (Viz.main W input csv))).
  { intros H. apply listed_cause_cases in H.
    destruct H as [H|[H|[H|H]]]; [| | |now apply other_cause_fails];
      apply not_json_fails; tauto. }
  split; [exact Hlisted|]. split.
  - apply fails_has_cause.
  - intros [H|H]; [now apply Hlisted | now apply other_cause_fails].
Qed.

Lemma orchestrator_fails_in_listed_cases_and_others_witness :
  fails (run (Viz.main
                (Examples.world Examples.api_key [Returns (lit "Sorry, I cannot.")])
                Examples.sales_text false)).
Proof.
  destruct (orchestrator_fails_in_listed_cases_and_others
              (Examples.world Examples.api_key [Returns (lit "Sorry, I cannot.")])
              Examples.sales_text false) as [Hlisted _].
  apply Hlisted.
  apply (@Stage1NotJson _ _ _ (lit "Sorry, I cannot.") (lit "Expecting value")).
  - split; [split; reflexivity|].
    exists Examples.sales_text. split; reflexivity.
  - vm_compute. reflexivity.
Defined.

(** C6, as stated, fails: when the first model call raises (the
    service answers 503), the key is set, no response exists that could
    fail to decode or lack a key, and yet the run reports an error and
    exits. *)
Lemma model_call_failure_is_not_listed :
  let W := Examples.world Examples.api_key
             [Raises COther (lit "503 service unavailable")] in
  let p := run (Viz.main W Examples.sales_text false) in
  ~ (fails p <-> listed_cause W Examples.sales_text false).
Proof.
  intros W p [Hfwd _].
  assert (Hf : fails p) by (split; vm_compute; discriminate).
  destruct (Hfwd Hf); open_milestones;
    match goal with
    | H : py_not _ = true |- _ => discriminate H
    | H : gemini _ 0%nat _ = Returns _ |- _ => discriminate H
    end.
Qed.

(** ** How errors are reported (C3) *)

(** The question answering scripts report every failure as a JSON
    object with an ["error"] key on standard error, with exit status 1
    (for the website script, once its import at the top has passed). *)
Lemma qa_failure_reports_json_error (W : World) (input question : pystr) (csv : bool) :
  let p := run (QA.main W input question csv) in
  exit_code p <> 0%Z -> reports_json_error p /\ exit_code p = 1%Z.
Proof.
  unfold reports_json_error, error_dict.
  qa_paths W; intros Hexit; try now elim Hexit.
  all: split; [|reflexivity].
  all: eexists; eexists; split;
    [first [left; reflexivity | right; left; reflexivity] | reflexivity].
Qed.

Lemma web_failure_reports_json_error (W : World) (argv : list pystr) :
  genai_installed W = true ->
  let p := run (WebQA.main W argv) in
  exit_code p <> 0%Z -> reports_json_error p /\ exit_code p = 1%Z.
Proof.
  intros Hi. unfold reports_json_error, error_dict.
  web_paths W argv; intros Hexit; try now elim Hexit; try congruence.
  all: split; [|reflexivity].
  all: eexists; eexists; split;
    [first [left; reflexivity | right; left; reflexivity] | reflexivity].
Qed.

(** In the visualization script the same report is written with
    [file=sys.stderr] inside the call of [json.dumps]: without a key the
    run ends with the traceback of a [TypeError] and nothing else. *)
Lemma viz_missing_key_traceback (W : World) (input : pystr) (csv : bool) :
  genai_installed W = true -> py_not (GEMINI_API_KEY W) = true ->
  run (Viz.main W input csv) = mkProcess [EvTraceback dumps_file_error] 1.
Proof.
  intros Hi Hk. viz_paths W input csv; first [reflexivity | congruence].
Qed.

(** C3, at the failing input.  With [GEMINI_API_KEY] unset, the
    visualization script exits with status 1, but what it writes to
    standard error is the traceback of the [TypeError] raised by
    [json.dumps(..., file=sys.stderr)]: no JSON object with an ["error"]
    key is written. *)
Theorem viz_missing_key_reports_no_json_error :
  let p := run (Viz.main (Examples.world None []) Examples.sales_text false) in
  exit_code p = 1%Z
  /\ stderr p = [EvTraceback dumps_file_error]
  /\ stdout p = []
  /\ ~ reports_json_error p.
Proof.
  cbv zeta.
  rewrite (viz_missing_key_traceback (Examples.world None []) Examples.sales_text false
             eq_refl eq_refl).
  repeat split.
  intros (members & msg & Hin & _). cbn [output In] in Hin.
  destruct Hin as [Hin|[]]. discriminate Hin.
Qed.

(** * Further properties of the scripts *)

Ltac start :=
  intros; repeat match goal with p := _ |- _ => subst p end.

(** ** Exit status and model calls *)

(** X1.  Every run of the three scripts ends with exit status 0 or 1
    (the arguments being already read): every error path leaves through
    [sys.exit(1)] or through an uncaught exception. *)
Theorem exit_status_is_zero_or_one (W : World) :
  (forall input csv,
      let p := run (Viz.main W input csv) in exit_code p = 0%Z \/ exit_code p = 1%Z)
  /\ (forall input question csv,
      let p := run (QA.main W input question csv) in
      exit_code p = 0%Z \/ exit_code p = 1%Z)
  /\ (forall argv,
      let p := run (WebQA.main W argv) in exit_code p = 0%Z \/ exit_code p = 1%Z).
Proof.
  repeat split; start.
  - viz_paths W input csv; first [left; reflexivity | right; reflexivity].
  - qa_paths W; first [left; reflexivity | right; reflexivity].
  - web_paths W argv; first [left; reflexivity | right; reflexivity].
Qed.

(** X2.  No script retries a model call: a visualization run sends at
    most two prompts and a question answering run at most one, on
    failing paths as on the successful one. *)
Theorem model_calls_are_bounded (W : World) :
  (forall input csv,
      (List.length (prompts (output (run (Viz.main W input csv)))) <= 2)%nat)
  /\ (forall input question csv,
      (List.length (prompts (output (run (QA.main W input question csv)))) <= 1)%nat)
  /\ (forall argv,
      (List.length (prompts (output (run (WebQA.main W argv)))) <= 1)%nat).
Proof.
  repeat split; start.
  - viz_paths W input csv; repeat constructor.
  - qa_paths W; repeat constructor.
  - web_paths W argv; repeat constructor.
Qed.

(** X3.  An API key that is set to the empty string counts as missing
    ([not ""] is true): the three scripts end with exit status 1
    without sending a prompt. *)
Theorem empty_key_is_missing (W : World) :
  GEMINI_API_KEY W = Some [] ->
  (forall input csv,
      let p := run (Viz.main W input csv) in
      prompts (output p) = [] /\ exit_code p = 1%Z)
  /\ (forall input question csv,
      let p := run (QA.main W input question csv) in
      prompts (output p) = [] /\ exit_code p = 1%Z)
  /\ (forall argv,
      let p := run (WebQA.main W argv) in
      prompts (output p) = [] /\ exit_code p = 1%Z).
Proof.
  intros Hempty.
  assert (Hmissing : py_not (GEMINI_API_KEY W) = true) by now rewrite Hempty.
  repeat split; start.
  all: try (viz_paths W input csv; first [reflexivity | congruence]).
  all: try (qa_paths W; first [reflexivity | congruence]).
  all: try (web_paths W argv; first [reflexivity | congruence]).
Qed.

Lemma empty_key_is_missing_witness :
  let p := run (QA.main (Examples.world (Some []) [Returns (lit "Ten.")])
                  Examples.sales_text (lit "How many?") false) in
  prompts (output p) = [] /\ exit_code p = 1%Z.
Proof.
  destruct (empty_key_is_missing (Examples.world (Some []) [Returns (lit "Ten.")])
              eq_refl) as (_ & Hqa & _).
  apply Hqa.
Defined.

(** ** What the visualization script writes on failure *)



Ltac settle :=
  first [ solve [exfalso; open_milestones; congruence]
        | open_milestones; repeat split;
          first [ reflexivity | congruence
                | let Hin := fresh "Hin" in intros Hin; not_in_trace Hin ] ].

(** X5.  When the Stage-1 response is not JSON once the fence is
    removed, the run sends no second prompt and opens no figure; it
    prints one JSON object on standard error whose [error] is the
    message of the decoder after a fixed prefix and whose [raw_output]
    is the response, stripped, with its fence still in place, and exits
    with status 1. *)
Theorem stage1_decode_error_report
    (W : World) (input : pystr) (csv : bool) (response msg : pystr) :
  stage1_response W input csv response ->
  loads W (Fence.clean_output response) = Raises CJSONDecodeError msg ->
  let p := run (Viz.main W input csv) in
  exit_code p = 1%Z
  /\ stderr p = [parse_report meta_parse_message msg (strip response)]
  /\ List.length (prompts (output p)) = 1%nat
  /\ ~ In EvFigure (output p).
Proof.
  intros Hresp Hloads. start. unfold meta_parse_message.
  viz_paths W input csv; settle.
Qed.

Lemma stage1_decode_error_report_witness :
  let p := run (Viz.main (Examples.world Examples.api_key
                            [Returns (nl ++ lit "Sorry, I cannot. ")])
                  Examples.sales_text false) in
  exit_code p = 1%Z
  /\ stderr p = [parse_report meta_parse_message (lit "Expecting value")
                   (lit "Sorry, I cannot.")]
  /\ List.length (prompts (output p)) = 1%nat
  /\ ~ In EvFigure (output p).
Proof.
  apply (stage1_decode_error_report
           (Examples.world Examples.api_key [Returns (nl ++ lit "Sorry, I cannot. ")])
           Examples.sales_text false (nl ++ lit "Sorry, I cannot. ")
           (lit "Expecting value")).
  - split; [split; reflexivity|].
    exists Examples.sales_text. split; reflexivity.
  - vm_compute. reflexivity.
Defined.

(** X6.  When Stage 1 succeeds and the Stage-2 response is not JSON
    once the fence is removed, the run has sent exactly two prompts and
    opens no figure; it prints one JSON object on standard error whose
    [raw_output] is the stripped Stage-2 response, and exits with
    status 1. *)
Theorem stage2_decode_error_report
    (W : World) (input : pystr) (csv : bool)
    (suggested prompt2 : json) (response msg : pystr) :
  stage1_suggestion W input csv suggested prompt2 ->
  stage2_response W input prompt2 response ->
  loads W (Fence.clean_output response) = Raises CJSONDecodeError msg ->
  let p := run (Viz.main W input csv) in
  exit_code p = 1%Z
  /\ stderr p = [parse_report chart_parse_message msg (strip response)]
  /\ List.length (prompts (output p)) = 2%nat
  /\ ~ In EvFigure (output p).
Proof.
  intros Hsugg Hresp Hloads. start. unfold chart_parse_message.
  viz_paths W input csv; settle.
Qed.

Lemma stage2_decode_error_report_witness :
  let p := run (Viz.main (Examples.world Examples.api_key
                            [Returns (Examples.meta_text "pie");
                             Returns (lit "{oops}")])
                  Examples.sales_text false) in
  exit_code p = 1%Z
  /\ stderr p = [parse_report chart_parse_message (lit "Expecting value")
                   (lit "{oops}")]
  /\ List.length (prompts (output p)) = 2%nat
  /\ ~ In EvFigure (output p).
Proof.
  apply (stage2_decode_error_report
           (Examples.world Examples.api_key
              [Returns (Examples.meta_text "pie"); Returns (lit "{oops}")])
           Examples.sales_text false
           (JString (lit "pie")) (JString (lit "Sum sales by quarter"))
           (lit "{oops}") (lit "Expecting value")).
  - exists (JObject [(lit "chart_type_suggestion", JString (lit "pie"));
                     (lit "optimized_prompt", JString (lit "Sum sales by quarter"))]).
    split; [|split; vm_compute; reflexivity].
    exists (Examples.meta_text "pie"). split; [|vm_compute; reflexivity].
    split; [split; reflexivity|].
    exists Examples.sales_text. split; reflexivity.
  - vm_compute. reflexivity.
  - vm_compute. reflexivity.
Defined.

(** X7.  The clause [except json.JSONDecodeError] of Stage 1 also
    catches a decoding error raised by the model call itself, before
    [raw_meta_output] has been assigned: the report then carries an
    empty [raw_output]. *)
Theorem stage1_call_decode_error_has_empty_raw_output
    (W : World) (input : pystr) (csv : bool) (text msg : pystr) :
  configured W -> stage1_text W input csv text ->
  gemini W 0 (Viz.meta_prompt text) = Raises CJSONDecodeError msg ->
  let p := run (Viz.main W input csv) in
  output p = [EvGenerate (Viz.meta_prompt text);
              parse_report meta_parse_message msg []]
  /\ exit_code p = 1%Z.
Proof.
  intros Hconf Htext Hcall. start. unfold meta_parse_message.
  viz_paths W input csv; settle.
Qed.

Lemma stage1_call_decode_error_has_empty_raw_output_witness :
  let p := run (Viz.main (Examples.world Examples.api_key
                            [Raises CJSONDecodeError (lit "Expecting value")])
                  Examples.sales_text false) in
  output p = [EvGenerate (Viz.meta_prompt Examples.sales_text);
              parse_report meta_parse_message (lit "Expecting value") []]
  /\ exit_code p = 1%Z.
Proof.
  apply (stage1_call_decode_error_has_empty_raw_output
           (Examples.world Examples.api_key
              [Raises CJSONDecodeError (lit "Expecting value")])
           Examples.sales_text false Examples.sales_text (lit "Expecting value")).
  - split; reflexivity.
  - reflexivity.
  - reflexivity.
Defined.

(** ** The figure *)

(** X8.  A figure is opened only after both stages have answered and
    both answers have been decoded: a run whose trace holds
    [plt.figure] has sent exactly two prompts, has a Stage-1 suggestion
    and a Stage-2 object. *)
Theorem figure_opened_after_both_stages (W : World) (input : pystr) (csv : bool) :
  let p := run (Viz.main W input csv) in
  In EvFigure (output p) ->
  List.length (prompts (output p)) = 2%nat
  /\ exists chart_type optimized_prompt chart_data,
       stage1_suggestion W input csv chart_type optimized_prompt
       /\ stage2_object W input optimized_prompt chart_data.
Proof.
  start. revert H.
  viz_paths W input csv; intros Hfig; try not_in_trace Hfig.
  all: split; [reflexivity|].
  all: unfold stage1_suggestion, stage1_object, stage1_response, stage2_object,
         stage2_response, configured, stage1_text; reach.
Qed.

Lemma figure_opened_after_both_stages_witness :
  List.length
    (prompts (output (run (Viz.main
                             (Examples.world Examples.api_key
                                [Returns (Examples.meta_text "line");
                                 Returns Examples.fenced_chart_text])
                             Examples.sales_text false)))) = 2%nat.
Proof.
  apply (figure_opened_after_both_stages
           (Examples.world Examples.api_key
              [Returns (Examples.meta_text "line");
               Returns Examples.fenced_chart_text])
           Examples.sales_text false).
  vm_compute. right. right. left. reflexivity.
Defined.

(** X9.  A run opens at most one figure and calls [plt.close] exactly
    as often as [plt.figure]: the figure is never closed twice, and
    nothing is closed when no figure was opened. *)
Theorem figure_opened_and_closed_once (W : World) (input : pystr) (csv : bool) :
  let p := run (Viz.main W input csv) in
  count_closes (output p) = count_figures (output p)
  /\ (count_figures (output p) <= 1)%nat.
Proof.
  start. viz_paths W input csv; split; first [reflexivity | repeat constructor].
Qed.

Lemma map_result_length {A B : Type} (f : A -> result B) (xs : list A) (ys : list B) :
  map_result f xs = inr ys -> List.length ys = List.length xs.
Proof.
  revert ys. induction xs as [|x xs IH]; simpl; intros ys.
  - now intros [= <-].
  - destruct (f x); [discriminate|].
    destruct (map_result f xs) as [|zs]; [discriminate|].
    intros [= <-]. simpl. now rewrite (IH zs eq_refl).
Qed.

Lemma chart_fields_lengths (chart_data : json) (labels values : list json) (title : json) :
  chart_fields chart_data = inr (labels, values, title) ->
  List.length labels = List.length values.
Proof.
  unfold chart_fields.
  destruct (subscript chart_data (lit "data_points")) as [|dps]; [discriminate|].
  destruct (elements dps) as [|items]; [discriminate|].
  destruct (map_result (fun dp => subscript dp (lit "label")) items)
    as [|ls] eqn:El; [discriminate|].
  destruct (map_result (fun dp => subscript dp (lit "value")) items)
    as [|vs] eqn:Ev; [discriminate|].
  destruct (subscript chart_data (lit "title")); [discriminate|].
  intros [= <- <- _].
  now rewrite (map_result_length _ _ _ El), (map_result_length _ _ _ Ev).
Qed.

(** X10.  Whatever is plotted has as many labels as values: the two
    lists passed to the plotting call are read from the same data
    points, one label and one value each. *)
Theorem plotted_labels_match_values
    (W : World) (input : pystr) (csv : bool)
    (plot_kind : chart) (plot_labels plot_values : list json) (plot_title : json) :
  let p := run (Viz.main W input csv) in
  In (EvPlot plot_kind plot_labels plot_values plot_title) (output p) ->
  List.length plot_labels = List.length plot_values.
Proof.
  start. revert H.
  viz_paths W input csv; intros Hin; cbn [In] in Hin.
  all: repeat (destruct Hin as [Hin|Hin];
               [ first [ discriminate Hin
                       | injection Hin as <- <- <- <-;
                         eapply chart_fields_lengths; eassumption ] | ]).
  all: contradiction Hin.
Qed.

Lemma plotted_labels_match_values_witness :
  List.length [JString (lit "Q1")] = List.length [JInt 10].
Proof.
  apply (plotted_labels_match_values
           (Examples.world Examples.api_key
              [Returns (Examples.meta_text "bar");
               Returns Examples.fenced_chart_text])
           Examples.sales_text false
           Bar [JString (lit "Q1")] [JInt 10] (JString (lit "Sales"))).
  vm_compute. right. right. right. left. reflexivity.
Defined.

(** ** Chart types and chart data *)

Lemma chart_kind_exact (chart_type : json) :
  (forall k, chart_type <> JString (chart_name k)) -> chart_kind chart_type = None.
Proof.
  intros Hno. unfold chart_kind, eq_str.
  destruct chart_type as [| | | |s| |]; try reflexivity.
  destruct (PyStr.eqb s (lit "bar")) eqn:Eb.
  { apply PyStrFacts.eqb_eq in Eb. subst s. now elim (Hno Bar). }
  destruct (PyStr.eqb s (lit "pie")) eqn:Ep.
  { apply PyStrFacts.eqb_eq in Ep. subst s. now elim (Hno Pie). }
  destruct (PyStr.eqb s (lit "line")) eqn:El.
  { apply PyStrFacts.eqb_eq in El. subst s. now elim (Hno Line). }
  reflexivity.
Qed.

(** X11.  The chart type is compared as it is with the three words:
    any other value of [chart_type_suggestion], be it a string in
    another case or with spaces around, a number, a list or [null],
    ends the run with exit status 1, nothing on standard output and no
    plotting or saving. *)
Theorem chart_type_must_be_exact
    (W : World) (input : pystr) (csv : bool) (meta_output suggested : json) :
  stage1_object W input csv meta_output ->
  subscript meta_output (lit "chart_type_suggestion") = inr suggested ->
  (forall k, suggested <> JString (chart_name k)) ->
  let p := run (Viz.main W input csv) in
  exit_code p = 1%Z
  /\ stdout p = []
  /\ forallb (fun ev => negb (is_rendering ev)) (output p) = true.
Proof.
  intros Hobj Hsub Hno. start.
  pose proof (chart_kind_exact suggested Hno) as Hnone.
  viz_paths W input csv.
  all: try solve [repeat split; reflexivity].
  all: exfalso; open_milestones; congruence.
Qed.

Lemma chart_type_must_be_exact_witness :
  let p := run (Viz.main (Examples.world Examples.api_key
                            [Returns (Examples.meta_text "Bar");
                             Returns Examples.fenced_chart_text])
                  Examples.sales_text false) in
  exit_code p = 1%Z
  /\ stdout p = []
  /\ forallb (fun ev => negb (is_rendering ev)) (output p) = true.
Proof.
  apply (chart_type_must_be_exact
           (Examples.world Examples.api_key
              [Returns (Examples.meta_text "Bar");
               Returns Examples.fenced_chart_text])
           Examples.sales_text false
           (JObject [(lit "chart_type_suggestion", JString (lit "Bar"));
                     (lit "optimized_prompt", JString (lit "Sum sales by quarter"))])
           (JString (lit "Bar"))).
  - exists (Examples.meta_text "Bar"). split.
    + split; [split; reflexivity|].
      exists Examples.sales_text. split; reflexivity.
    + vm_compute. reflexivity.
  - vm_compute. reflexivity.
  - intros k; destruct k; vm_compute; discriminate.
Defined.

Lemma subscript_not_object (v : json) (key : pystr) :
  is_object v = false -> exists msg, subscript v key = inl (TypeError msg).
Proof.
  destruct v; simpl; try discriminate; eauto.
Qed.

(** X12.  A Stage-1 response that is valid JSON but not an object (a
    list, a string, a number, [null]) is not reported as a parsing
    failure: reading [chart_type_suggestion] from it raises, and the run
    ends after one prompt with exit status 1 and the traceback as its
    only output. *)
Theorem stage1_value_must_be_an_object
    (W : World) (input : pystr) (csv : bool) (meta_output : json) :
  stage1_object W input csv meta_output ->
  is_object meta_output = false ->
  let p := run (Viz.main W input csv) in
  exit_code p = 1%Z
  /\ stderr p = [EvTraceback dumps_file_error]
  /\ stdout p = []
  /\ List.length (prompts (output p)) = 1%nat.
Proof.
  intros Hobj Hno. start.
  destruct (subscript_not_object meta_output (lit "chart_type_suggestion") Hno)
    as [m Hm].
  viz_paths W input csv.
  all: first [ solve [exfalso; open_milestones; congruence]
             | repeat split; reflexivity ].
Qed.

Lemma stage1_value_must_be_an_object_witness :
  let p := run (Viz.main (Examples.world Examples.api_key [Returns (lit "[1, 2]")])
                  Examples.sales_text false) in
  exit_code p = 1%Z
  /\ stderr p = [EvTraceback dumps_file_error]
  /\ stdout p = []
  /\ List.length (prompts (output p)) = 1%nat.
Proof.
  apply (stage1_value_must_be_an_object
           (Examples.world Examples.api_key [Returns (lit "[1, 2]")])
           Examples.sales_text false (JArray [JInt 1; JInt 2])).
  - exists (lit "[1, 2]"). split.
    + split; [split; reflexivity|].
      exists Examples.sales_text. split; reflexivity.
    + vm_compute. reflexivity.
  - reflexivity.
Defined.

(** X13.  With [--csv], data that pandas cannot read ends the run
    before any prompt is sent, with exit status 1 and the traceback as
    its only output. *)
Theorem unreadable_csv_stops_before_any_model_call
    (W : World) (input : pystr) (csv : bool) (cls : error_class) (msg : pystr) :
  configured W -> csv = true -> read_csv W input = Raises cls msg ->
  run (Viz.main W input csv) = mkProcess [EvTraceback dumps_file_error] 1.
Proof.
  intros [Hi Hk] Hcsv_mode Hread.
  viz_paths W input csv; first [reflexivity | congruence].
Qed.

Lemma unreadable_csv_stops_before_any_model_call_witness :
  run (Viz.main (Examples.world Examples.api_key [Returns (Examples.meta_text "bar")])
         [] true)
  = mkProcess [EvTraceback dumps_file_error] 1.
Proof.
  apply (unreadable_csv_stops_before_any_model_call
           (Examples.world Examples.api_key [Returns (Examples.meta_text "bar")])
           [] true CValueError (lit "No columns to parse from file")).
  - split; reflexivity.
  - reflexivity.
  - reflexivity.
Defined.

Lemma map_result_Forall2 {A B : Type} (f : A -> result B) (xs : list A) (ys : list B) :
  Forall2 (fun x y => f x = inr y) xs ys -> map_result f xs = inr ys.
Proof.
  induction 1 as [|x y xs ys Hxy _ IH]; simpl; [reflexivity|].
  now rewrite Hxy, IH.
Qed.

Lemma chart_kind_name (k : chart) : chart_kind (JString (chart_name k)) = Some k.
Proof. destruct k; vm_compute; reflexivity. Qed.

(** X14.  Stage 3 needs of the chart data a [title], and of each data
    point a [label] and a [value] and nothing else ([summary] is never
    read; the list may be empty): with one of the three chart types,
    and plotting and saving going through, it opens the figure, plots
    the labels and values in the order of the data points, saves,
    closes and returns the image with the title. *)
Theorem points_need_label_and_value
    (W : World) (chart_data title : json) (points labels values : list json)
    (k : chart) (image : pystr) (st : state) :
  subscript chart_data (lit "data_points") = inr (JArray points) ->
  Forall2 (fun dp l => subscript dp (lit "label") = inr l) points labels ->
  Forall2 (fun dp v => subscript dp (lit "value") = inr v) points values ->
  subscript chart_data (lit "title") = inr title ->
  draw W k labels values title = Returns tt ->
  savefig W (Some (k, labels, values, title)) = Returns image ->
  Viz.stage3 W (JString (chart_name k)) chart_data st
  = (mkState (events st ++ [EvFigure; EvPlot k labels values title; EvSavefig; EvClose])
             (vars st),
     inr (chart_result image title)).
Proof.
  intros Hdps Hlabels Hvalues Htitle Hdraw Hsave.
  rewrite stage3_run. cbv zeta.
  unfold chart_fields. rewrite Hdps. cbn [elements].
  rewrite (map_result_Forall2 _ _ _ Hlabels), (map_result_Forall2 _ _ _ Hvalues), Htitle.
  rewrite chart_kind_name, Hdraw, Hsave.
  rewrite <- !app_assoc. reflexivity.
Qed.

Lemma points_need_label_and_value_witness :
  Viz.stage3 (Examples.world Examples.api_key []) (JString (lit "pie"))
    Examples.chart_object initial
  = (mkState [EvFigure; EvPlot Pie [JString (lit "Q1")] [JInt 10] (JString (lit "Sales"));
              EvSavefig; EvClose] [],
     inr (chart_result (lit "iVBORw0KGgo=") (JString (lit "Sales")))).
Proof.
  apply (points_need_label_and_value
           (Examples.world Examples.api_key []) Examples.chart_object
           (JString (lit "Sales"))
           [JObject [(lit "label", JString (lit "Q1")); (lit "value", JInt 10)]]
           [JString (lit "Q1")] [JInt 10] Pie (lit "iVBORw0KGgo=") initial).
  - vm_compute. reflexivity.
  - repeat constructor.
  - repeat constructor.
  - vm_compute. reflexivity.
  - reflexivity.
  - reflexivity.
Defined.

(** ** The question answering scripts *)


(** X16.  A run of the website script succeeds exactly when the module
    is installed, at least two arguments follow the script name, the key
    is set and the model answers the prompt built from the first two
    arguments; further arguments are ignored. *)
Theorem web_succeeds_iff_model_answers (W : World) (argv : list pystr) :
  exit_code (run (WebQA.main W argv)) = 0%Z
  <-> genai_installed W = true
      /\ (3 <= List.length argv)%nat
      /\ py_not (GEMINI_API_KEY W) = false
      /\ exists response,
           gemini W 0 (interpolated_prompt (nth 1 argv []) (nth 2 argv []))
           = Returns response.
Proof.
  web_paths W argv; split.
  all: try (intros Hexit; discriminate Hexit).
  all: try match goal with
           | H : (_ <? _)%nat = true |- _ => apply Nat.ltb_lt in H
           | H : (_ <? _)%nat = false |- _ => apply Nat.ltb_ge in H
           end.
  all: try (intros (Hi & Hlen & Hk & response' & Hr);
            first [ congruence
                  | exfalso; apply (Nat.lt_irrefl 3);
                    eapply Nat.le_lt_trans; eassumption ]).
  all: try (intros _; repeat split; first [assumption | eexists; reflexivity]).
Qed.



(** X18.  The website script checks its arguments before the key: with
    fewer than two arguments after the script name it prints its usage
    error as a JSON object on standard error and exits with status 1,
    whether the key is set or not, and sends nothing to the model. *)
Theorem web_arguments_checked_first (W : World) (argv : list pystr) :
  genai_installed W = true -> (List.length argv < 3)%nat ->
  run (WebQA.main W argv)
  = mkProcess [EvPrint Stderr (error_dict arguments_message)] 1.
Proof.
  intros Hi Hlen. apply Nat.ltb_lt in Hlen. unfold arguments_message.
  web_paths W argv; first [reflexivity | congruence].
Qed.

Lemma web_arguments_checked_first_witness :
  run (WebQA.main (Examples.world None []) [lit "gemini_qa.py"; Examples.sales_text])
  = mkProcess [EvPrint Stderr (error_dict arguments_message)] 1.
Proof.
  apply (web_arguments_checked_first (Examples.world None [])
           [lit "gemini_qa.py"; Examples.sales_text]).
  - reflexivity.
  - repeat constructor.
Defined.

(** X19.  The website script imports the module at its top, outside
    any [try]: when the module is missing the run ends with the
    traceback of the import error and exit status 1, whatever the
    arguments and the key, where [gemini_qa.py] prints a JSON error. *)
Theorem web_missing_module_is_a_traceback (W : World) (argv : list pystr) :
  genai_installed W = false ->
  run (WebQA.main W argv) = mkProcess [EvTraceback import_error] 1
  /\ forall input question csv,
       run (QA.main W input question csv)
       = mkProcess [EvPrint Stderr (error_dict Viz.module_not_found_message)] 1.
Proof.
  intros Hno. split; [|intros input question csv].
  - web_paths W argv; first [reflexivity | congruence].
  - qa_paths W; first [reflexivity | congruence].
Qed.

Lemma web_missing_module_is_a_traceback_witness :
  run (WebQA.main (mkWorld Examples.api_key false (fun _ _ => Returns [])
                     RefJson.loads (fun _ => Returns ([], [])) (fun _ => [])
                     (fun _ _ _ _ => Returns tt) (fun _ => Returns []))
         (Examples.web_argv Examples.sales_text (lit "How many?")))
  = mkProcess [EvTraceback import_error] 1.
Proof.
  apply (web_missing_module_is_a_traceback
           (mkWorld Examples.api_key false (fun _ _ => Returns [])
              RefJson.loads (fun _ => Returns ([], [])) (fun _ => [])
              (fun _ _ _ _ => Returns tt) (fun _ => Returns []))).
  reflexivity.
Defined.

(** ** More on the fence *)

Module FenceMore.

Import PyStrFacts FenceFacts Fence.

#[local] Transparent lit strip Fence.clean_output.

Lemma in_strip (c : codepoint) (s : pystr) : In c (strip s) -> In c s.
Proof.
  intros Hin. destruct (strip_spec s) as (pre & post & E & _).
  rewrite E. apply in_or_app. right. apply in_or_app. now left.
Qed.

Lemma in_lstrip_back (c : codepoint) (s : pystr) : In c (lstrip s) -> In c s.
Proof.
  intros Hin. destruct (lstrip_spec s) as (pre & E & _).
  rewrite E. apply in_or_app. now right.
Qed.

Lemma match_close_backtick (s r : pystr) :
  match_close s = Some r -> In backtick s.
Proof.
  unfold match_close.
  destruct (drop_prefix close_marker (lstrip s)) as [r'|] eqn:E; [|discriminate].
  intros _. apply drop_prefix_Some in E.
  apply in_lstrip_back. rewrite E. now left.
Qed.

Lemma scan_plain (s : pystr) : ~ In backtick s -> scan s = s.
Proof.
  induction s as [|c s IH]; intros Hno; rewrite scan_unfold.
  - reflexivity.
  - destruct (match_close (c :: s)) as [r|] eqn:E.
    + elim Hno. eapply match_close_backtick; eassumption.
    + rewrite IH; [reflexivity|]. intros Hin. apply Hno. now right.
Qed.

Lemma re_sub_fence_plain (s : pystr) : ~ In backtick s -> re_sub_fence s = s.
Proof.
  intros Hno. unfold re_sub_fence.
  destruct (drop_prefix open_marker s) as [r|] eqn:E.
  - elim Hno. apply drop_prefix_Some in E. rewrite E. now left.
  - now apply scan_plain.
Qed.

Lemma strip_twice (s : pystr) : strip (strip s) = strip s.
Proof.
  destruct (strip_spec s) as (pre & post & _ & _ & _ & Hh & Hl).
  now apply strip_fixed.
Qed.

Lemma clean_output_unfold (text : pystr) :
  clean_output text = re_sub_fence (strip (strip text)).
Proof. reflexivity. Qed.


End FenceMore.

(** X20.  The second [.strip()] of lines 56 and 84 changes nothing:
    the cleaned text is the substitution applied to the response
    stripped once. *)
Theorem second_strip_is_redundant (text : pystr) :
  Fence.clean_output text = Fence.re_sub_fence (strip text).
Proof.
  rewrite FenceMore.clean_output_unfold. now rewrite FenceMore.strip_twice.
Qed.

(** X21.  A response without any backtick is only stripped: the
    substitution leaves its text as it is, whatever it holds. *)
Theorem response_without_backtick_is_only_stripped (text : pystr) :
  ~ In Fence.backtick text -> Fence.clean_output text = strip text.
Proof.
  intros Hno. rewrite FenceMore.clean_output_unfold, FenceMore.strip_twice.
  apply FenceMore.re_sub_fence_plain.
  intros Hin. apply Hno. now apply FenceMore.in_strip.
Qed.

Lemma response_without_backtick_is_only_stripped_witness :
  Fence.clean_output (lit " json { } " ++ nl) = lit "json { }".
Proof.
  rewrite (response_without_backtick_is_only_stripped (lit " json { } " ++ nl)).
  - vm_compute. reflexivity.
  - vm_compute. intuition discriminate.
Defined.



(** ** One line of output *)


(** X24.  The question answering scripts do not check the answer: when
    the model answers with whitespace only, the run succeeds and prints
    an empty [answer]. *)
Theorem blank_answer_is_printed_empty (W : World) (blank : pystr) :
  configured W -> all_space blank ->
  (forall input question csv,
      gemini W 0 (QA.qa_prompt (context_prefix csv) input question) = Returns blank ->
      run (QA.main W input question csv)
      = mkProcess [EvGenerate (QA.qa_prompt (context_prefix csv) input question);
                   EvPrint Stdout (JObject [(lit "answer", JString [])])] 0)
  /\ (forall script text question rest,
      gemini W 0 (interpolated_prompt text question) = Returns blank ->
      run (WebQA.main W (script :: text :: question :: rest))
      = mkProcess [EvGenerate (interpolated_prompt text question);
                   EvPrint Stdout (JObject [(lit "answer", JString [])])] 0).
Proof.
  intros [Hi Hk] Hblank.
  assert (Hstrip : strip blank = []).
  { destruct (PyStrFacts.strip_spec blank) as (pre & post & E & Hpre & Hpost & Hh & _).
    destruct (strip blank) as [|c r] eqn:Es; [reflexivity|].
    exfalso. unfold all_space in Hblank. rewrite Forall_forall in Hblank.
    simpl in Hh. rewrite (Hblank c) in Hh; [discriminate|].
    rewrite E. apply in_or_app. right. now left. }
  split; intros.
  - revert H. unfold context_prefix.
    qa_paths W; intros Hcall'; congruence.
  - revert H. unfold WebQA.main. rewrite args_given. cbn [nth].
    web_paths W (script :: text :: question :: rest); intros Hcall'; congruence.
Qed.

Lemma blank_answer_is_printed_empty_witness :
  run (QA.main (Examples.world Examples.api_key [Returns (lit "  " ++ nl)])
         Examples.sales_text (lit "How many?") false)
  = mkProcess [EvGenerate (QA.qa_prompt (lit "Text") Examples.sales_text
                             (lit "How many?"));
               EvPrint Stdout (JObject [(lit "answer", JString [])])] 0.
Proof.
  destruct (blank_answer_is_printed_empty
              (Examples.world Examples.api_key [Returns (lit "  " ++ nl)])
              (lit "  " ++ nl)) as [Hqa _].
  - split; reflexivity.
  - repeat constructor.
  - apply (Hqa Examples.sales_text (lit "How many?") false). reflexivity.
Defined.
